(** * MisterHR: the front-end page handlers and the profiles access policies

  A shallow embedding of the event handlers of the résumé upload page,
  the registration page and the dashboard page (React components written
  in TypeScript), and of the row-level security policies declared for the
  [profiles] table, together with the properties the specification states
  about them.

  React state is modelled by explicit state passing.  A handler is a
  closure created by one render: what it reads is the state of that render
  (its snapshot), what it writes goes to the component's store through the
  setters.  Every handler below therefore takes the snapshot as an argument
  and is a computation on the store.

  An [async] handler is run to its end: each [await] on a timer is an
  effect in the log, and no other event is interleaved with it. *)

From Stdlib Require Import String List ZArith QArith Qminmax Lia Lqa Bool.
From Stdlib Require Import Qround Ascii.
Import ListNotations.

Local Open Scope string_scope.
Local Open Scope Z_scope.

(** ** JavaScript values and control flow *)

Module JS.

(** Truthiness of a string: only the empty string is falsy. *)
Definition truthy (s : string) : bool := negb (String.eqb s "").

(** [Array.prototype.includes] on an array of strings. *)
Definition includes (arr : list string) (x : string) : bool :=
  existsb (String.eqb x) arr.

(** [Array.prototype.join]. *)
Definition join (sep : string) (arr : list string) : string :=
  String.concat sep arr.

(** A string the user supplies: its sequence of UTF-16 code units, each a
    number below 65536.  [length] counts the units and [===] compares them
    in order; the handlers ask nothing else of such a string.  (The texts
    the source writes out as literals stay [string]s.) *)
Definition code_unit : Type := N.
Definition jsstring : Type := list code_unit.

(** Truthiness: only the empty string is falsy. *)
Definition str_truthy (s : jsstring) : bool :=
  match s with
  | [] => false
  | _ :: _ => true
  end.

(** [s.length] *)
Definition str_length (s : jsstring) : Z := Z.of_nat (List.length s).

(** [a === b] *)
Fixpoint str_eqb (a b : jsstring) : bool :=
  match a, b with
  | [], [] => true
  | x :: a', y :: b' => N.eqb x y && str_eqb a' b'
  | _, _ => false
  end.

(** The code units of a text made of ASCII characters. *)
Definition ofAscii (s : string) : jsstring :=
  map N_of_ascii (list_ascii_of_string s).

(** A thrown value: an [Error] object carrying its message, or anything
    else. *)
Inductive thrown : Type :=
| ErrorObject (message : string)
| OtherValue.

(** How a statement completes.  [OutOfFuel] is the model's answer when a
    loop was given too few iterations; no source behaviour maps to it. *)
Inductive completion (A : Type) : Type :=
| Normal (a : A)
| Throw (e : thrown)
| OutOfFuel.
Arguments Normal {A} a.
Arguments Throw {A} e.
Arguments OutOfFuel {A}.

(** Computations over a store [W] that may throw. *)
Definition M (W A : Type) : Type := W -> completion A * W.

Definition ret {W A} (a : A) : M W A := fun w => (Normal a, w).

Definition bind {W A B} (c : M W A) (k : A -> M W B) : M W B :=
  fun w =>
    match c w with
    | (Normal a, w') => k a w'
    | (Throw e, w') => (Throw e, w')
    | (OutOfFuel, w') => (OutOfFuel, w')
    end.

Definition throw {W A} (e : thrown) : M W A := fun w => (Throw e, w).

Definition diverge {W A} : M W A := fun w => (OutOfFuel, w).

Definition get {W} : M W W := fun w => (Normal w, w).

Definition modify {W} (f : W -> W) : M W unit := fun w => (Normal tt, f w).

(** [try { body } catch (err) { handler err }] *)
Definition tryCatch {W A} (body : M W A) (handler : thrown -> M W A) : M W A :=
  fun w =>
    match body w with
    | (Throw e, w') => handler e w'
    | r => r
    end.

(** [try { body } finally { fin }]: [fin] runs however [body] completes,
    and the completion of [body] stands unless [fin] is abrupt itself. *)
Definition tryFinally {W A} (body : M W A) (fin : M W unit) : M W A :=
  fun w =>
    match body w with
    | (OutOfFuel, w') => (OutOfFuel, w')
    | (r, w') =>
        match fin w' with
        | (Normal _, w'') => (r, w'')
        | (Throw e, w'') => (Throw e, w'')
        | (OutOfFuel, w'') => (OutOfFuel, w'')
        end
    end.

(** [for (const x of xs) { body x }] *)
Fixpoint forOf {W A} (xs : list A) (body : A -> M W unit) : M W unit :=
  match xs with
  | [] => ret tt
  | x :: rest => bind (body x) (fun _ => forOf rest body)
  end.

(** [for (let i = start; i <= bound; i += stride) { body i }], with a
    bound on the number of iterations so that the definition is
    structural. *)
Fixpoint forUpTo {W} (fuel : nat) (i bound stride : Z) (body : Z -> M W unit)
  : M W unit :=
  if i <=? bound then
    match fuel with
    | O => diverge
    | S fuel' =>
        bind (body i) (fun _ => forUpTo fuel' (i + stride) bound stride body)
    end
  else ret tt.

(** What a handler does to the world outside the component's state. *)
Inductive request_body : Type :=
| Multipart (fileName fileType : string) (fileSize : Z)
| JsonBody (text : string).

Inductive effect : Type :=
| PreventDefault                            (* e.preventDefault() *)
| Delay (ms : Z)                            (* await new Promise(r => setTimeout(r, ms)) *)
| RouterPush (path : string)                (* router.push(path) *)
| SetTimeoutPush (ms : Z) (path : string)   (* setTimeout(() => router.push(path), ms) *)
| HttpRequest (url : string) (body : request_body).  (* fetch(url, { body }) *)

End JS.

Declare Scope js_scope.
Delimit Scope js_scope with js.
Notation "x <- c ;; k" := (JS.bind c (fun x => k))
  (at level 61, c at next level, right associativity) : js_scope.
Notation "c ;; k" := (JS.bind c (fun _ => k))
  (at level 61, right associativity) : js_scope.


(** ** The résumé upload page ([ResumeUploadPage]) *)

Module Upload.

(** [config.upload] of [@/lib/config], which the page imports and which
    fixes the accepted extensions, the accepted MIME types and the largest
    size in bytes. *)
Class UploadConfig : Type := mkUploadConfig {
  acceptedExtensions : list string;
  acceptedTypes : list string;
  maxSize : Z
}.

(** How a number is printed inside a template literal. *)
Class NumberFormat : Type := mkNumberFormat {
  numberToString : Q -> string
}.

(** The part of a DOM [File] that the page reads. *)
Record File : Type := mkFile { name : string; type : string; size : Z }.

Inductive UploadPhase : Type :=
| idle | uploading | processing | completed | failed (* 'error' *).

(** The component's state, one field per [useState]. *)
Record PageState : Type := mkPageState {
  file : option File;
  uploadState : UploadPhase;
  uploadProgress : Z;
  error : string;
  processingStatus : string
}.

Definition initialState : PageState :=
  {| file := None; uploadState := idle; uploadProgress := 0;
     error := ""; processingStatus := "" |}.

(** The hidden [<input type="file">] behind [fileInputRef]. *)
Record InputElement : Type := mkInput { value : string }.

(** The store the handlers act on: the component's state, the element
    [fileInputRef.current] points to ([None] while the input is not
    mounted), and the effects performed so far, oldest first. *)
Record World : Type := mkWorld {
  ui : PageState;
  fileInputRef : option InputElement;
  effects : list JS.effect
}.

Definition withUi (f : PageState -> PageState) : JS.M World unit :=
  JS.modify (fun w =>
    {| ui := f (ui w); fileInputRef := fileInputRef w; effects := effects w |}).

Definition setFile (v : option File) : JS.M World unit :=
  withUi (fun s =>
    {| file := v; uploadState := uploadState s;
       uploadProgress := uploadProgress s; error := error s;
       processingStatus := processingStatus s |}).

Definition setUploadState (v : UploadPhase) : JS.M World unit :=
  withUi (fun s =>
    {| file := file s; uploadState := v;
       uploadProgress := uploadProgress s; error := error s;
       processingStatus := processingStatus s |}).

Definition setUploadProgress (v : Z) : JS.M World unit :=
  withUi (fun s =>
    {| file := file s; uploadState := uploadState s;
       uploadProgress := v; error := error s;
       processingStatus := processingStatus s |}).

Definition setError (v : string) : JS.M World unit :=
  withUi (fun s =>
    {| file := file s; uploadState := uploadState s;
       uploadProgress := uploadProgress s; error := v;
       processingStatus := processingStatus s |}).

Definition setProcessingStatus (v : string) : JS.M World unit :=
  withUi (fun s =>
    {| file := file s; uploadState := uploadState s;
       uploadProgress := uploadProgress s; error := error s;
       processingStatus := v |}).

(** [fileInputRef.current.value = v], for a mounted input. *)
Definition setInputValue (v : string) : JS.M World unit :=
  JS.modify (fun w =>
    {| ui := ui w;
       fileInputRef := option_map (fun _ => {| value := v |}) (fileInputRef w);
       effects := effects w |}).

Definition perform (e : JS.effect) : JS.M World unit :=
  JS.modify (fun w =>
    {| ui := ui w; fileInputRef := fileInputRef w;
       effects := (effects w ++ [e])%list |}).

Section WithConfig.

Context {config : UploadConfig} {format : NumberFormat}.

Definition ACCEPTED_FILES : string := JS.join ", " acceptedExtensions.
Definition MAX_SIZE : Q := (inject_Z maxSize / inject_Z (1024 * 1024))%Q.
Definition ACCEPTED_TYPES : list string := acceptedTypes.

Definition fileTypeMessage : string :=
  "Please upload a valid file type: " ++ ACCEPTED_FILES.

Definition fileSizeMessage : string :=
  "File size must be less than " ++ numberToString MAX_SIZE ++ "MB".

Definition validateFile (file : File) : option string :=
  if negb (JS.includes ACCEPTED_TYPES (type file)) then
    Some fileTypeMessage
  else if size file >? maxSize then
    Some fileSizeMessage
  else None.

Definition handleFileSelect (selectedFile : File) : JS.M World unit :=
  let validationError := validateFile selectedFile in
  let accept :=
    (setFile (Some selectedFile) ;;
     setError "" ;;
     setUploadState idle)%js in
  match validationError with
  | Some message => if JS.truthy message then setError message else accept
  | None => accept
  end.

(** [files] is [e.dataTransfer.files]. *)
Definition handleDrop (files : list File) : JS.M World unit :=
  (perform JS.PreventDefault ;;
   match files with
   | droppedFile :: _ => handleFileSelect droppedFile
   | [] => JS.ret tt
   end)%js.

Definition handleDragOver : JS.M World unit := perform JS.PreventDefault.

(** [files] is [e.target.files], which may be null. *)
Definition handleFileInput (files : option (list File)) : JS.M World unit :=
  match files with
  | Some (selectedFile :: _) => handleFileSelect selectedFile
  | _ => JS.ret tt
  end.

End WithConfig.

Definition removeFile : JS.M World unit :=
  (setFile None ;;
   setUploadState idle ;;
   setError "" ;;
   w <- JS.get ;;
   match fileInputRef w with
   | Some _ => setInputValue ""
   | None => JS.ret tt
   end)%js.

Definition processingSteps : list string :=
  [ "Extracting text and structure...";
    "Identifying key skills and experience...";
    "Analyzing job relevance...";
    "Generating optimization insights...";
    "Creating ATS-friendly format..." ].

(** [uploadFile], as created by a render whose state is [snap].  [fuel]
    bounds the iterations of the progress loop. *)
Definition uploadFile (fuel : nat) (snap : PageState) : JS.M World unit :=
  match file snap with
  | None => JS.ret tt
  | Some _ =>
      (setUploadState uploading ;;
       setUploadProgress 0 ;;
       setError "" ;;
       JS.tryCatch
         (JS.forUpTo fuel 0 100 10 (fun progress =>
            setUploadProgress progress ;;
            perform (JS.Delay 200)) ;;
          setUploadState processing ;;
          setProcessingStatus "Analyzing your resume with AI..." ;;
          JS.forOf processingSteps (fun step =>
            setProcessingStatus step ;;
            perform (JS.Delay 1500)) ;;
          setUploadState completed ;;
          setProcessingStatus "Resume processed successfully!" ;;
          perform (JS.SetTimeoutPush 2000 "/resume/analyze"))
         (fun err =>
            setUploadState failed ;;
            setError "Upload failed. Please try again."))%js
  end.

(** What the upload card renders, as a function of the state: the parts of
    the JSX that are guarded by a condition on the state. *)
Record View : Type := mkView {
  dropZone : bool;                       (* !file ? drop zone : preview *)
  filePreview : option File;
  errorAlert : option string;            (* error && <Alert> *)
  progressPanel : option (UploadPhase * Z * option string);
                                         (* uploadState !== 'idle' && ... *)
  analyzeButton : bool;                  (* file && uploadState === 'idle' *)
  removeButton : option bool             (* file && <Button disabled=...> *)
}.

Definition isIdle (p : UploadPhase) : bool :=
  match p with idle => true | _ => false end.

Definition isSome {A} (o : option A) : bool :=
  match o with Some _ => true | None => false end.

Definition render (s : PageState) : View :=
  {| dropZone := negb (isSome (file s));
     filePreview := file s;
     errorAlert := if JS.truthy (error s) then Some (error s) else None;
     progressPanel :=
       if negb (isIdle (uploadState s)) then
         Some (uploadState s, uploadProgress s,
               if JS.truthy (processingStatus s)
               then Some (processingStatus s) else None)
       else None;
     analyzeButton := isSome (file s) && isIdle (uploadState s);
     removeButton :=
       if isSome (file s) then Some (negb (isIdle (uploadState s))) else None |}.

(** The render that follows a state change.  The file input is part of the
    drop zone, which is rendered exactly while no file is selected: an
    input that stays mounted keeps its value, a newly mounted one is empty,
    and [fileInputRef.current] is null while the preview is shown. *)
Definition commit (w : World) : World :=
  {| ui := ui w;
     fileInputRef :=
       match file (ui w) with
       | None =>
           Some (match fileInputRef w with
                 | Some input => input
                 | None => {| value := "" |}
                 end)
       | Some _ => None
       end;
     effects := effects w |}.

(** Running a handler on a world: the world it leaves. *)
Definition exec {A} (c : JS.M World A) (w : World) : World := snd (c w).
Definition outcome {A} (c : JS.M World A) (w : World) : JS.completion A :=
  fst (c w).

(** The effects of one run of [uploadFile] on a selected file: eleven
    progress steps, five processing steps and the delayed redirect. *)
Definition simulatedEffects : list JS.effect :=
  (repeat (JS.Delay 200) 11 ++ repeat (JS.Delay 1500) 5
   ++ [JS.SetTimeoutPush 2000 "/resume/analyze"])%list.

(** A log records a request when some HTTP request occurs in it. *)
Definition sendsRequest (log : list JS.effect) : Prop :=
  exists url body, In (JS.HttpRequest url body) log.

(** A configuration and two files to run the handlers on. *)
Definition sampleConfig : UploadConfig :=
  {| acceptedExtensions := [".pdf"; ".docx"];
     acceptedTypes := ["application/pdf"];
     maxSize := 10485760 |}.

Definition sampleFormat : NumberFormat :=
  {| numberToString := fun _ => "10" |}.

Definition resumePdf : File :=
  {| name := "resume.pdf"; type := "application/pdf"; size := 52000 |}.

Definition photoPng : File :=
  {| name := "photo.png"; type := "image/png"; size := 52000 |}.

Definition emptyWorld : World :=
  {| ui := initialState; fileInputRef := Some {| value := "" |}; effects := [] |}.

(** A world in which a file is selected and the input is not mounted. *)
Definition selectedWorld : World :=
  {| ui := {| file := Some resumePdf; uploadState := idle;
              uploadProgress := 0; error := ""; processingStatus := "" |};
     fileInputRef := None; effects := [] |}.


End Upload.

(** ** The registration page ([RegisterPage]) *)

Module Register.

(** [UserRole] of [@/lib/types]: the two roles the page's buttons pass to
    [handleRoleSelect].  At run time a role is the string [roleName]. *)
Inductive UserRole : Type := applicant | recruiter.

Definition roleName (r : UserRole) : string :=
  match r with
  | applicant => "applicant"
  | recruiter => "recruiter"
  end.

Inductive Step : Type := role | details.

(** What the user typed into the five inputs. *)
Record FormData : Type := mkFormData {
  firstName : JS.jsstring;
  lastName : JS.jsstring;
  email : JS.jsstring;
  password : JS.jsstring;
  confirmPassword : JS.jsstring
}.

(** The [name] attributes of the inputs whose [onChange] is
    [handleChange]. *)
Inductive FieldName : Type :=
| firstName_ | lastName_ | email_ | password_ | confirmPassword_.

(** [{ ...prev, [name]: value }] *)
Definition setField (prev : FormData) (name : FieldName) (value : JS.jsstring)
  : FormData :=
  match name with
  | firstName_ =>
      {| firstName := value; lastName := lastName prev; email := email prev;
         password := password prev; confirmPassword := confirmPassword prev |}
  | lastName_ =>
      {| firstName := firstName prev; lastName := value; email := email prev;
         password := password prev; confirmPassword := confirmPassword prev |}
  | email_ =>
      {| firstName := firstName prev; lastName := lastName prev; email := value;
         password := password prev; confirmPassword := confirmPassword prev |}
  | password_ =>
      {| firstName := firstName prev; lastName := lastName prev;
         email := email prev; password := value;
         confirmPassword := confirmPassword prev |}
  | confirmPassword_ =>
      {| firstName := firstName prev; lastName := lastName prev;
         email := email prev; password := password prev;
         confirmPassword := value |}
  end.

(** The component's state, one field per [useState]. *)
Record PageState : Type := mkPageState {
  step : Step;
  isLoading : bool;
  showPassword : bool;
  error : string;
  selectedRole : option UserRole;
  formData : FormData
}.

Definition initialState : PageState :=
  {| step := role; isLoading := false; showPassword := false; error := "";
     selectedRole := None;
     formData := {| firstName := []; lastName := []; email := [];
                    password := []; confirmPassword := [] |} |}.

Record World : Type := mkWorld {
  ui : PageState;
  effects : list JS.effect
}.

Definition initialWorld : World := {| ui := initialState; effects := [] |}.

Definition withUi (f : PageState -> PageState) : JS.M World unit :=
  JS.modify (fun w => {| ui := f (ui w); effects := effects w |}).

Definition setStep (v : Step) : JS.M World unit :=
  withUi (fun s =>
    {| step := v; isLoading := isLoading s; showPassword := showPassword s;
       error := error s; selectedRole := selectedRole s;
       formData := formData s |}).

Definition setIsLoading (v : bool) : JS.M World unit :=
  withUi (fun s =>
    {| step := step s; isLoading := v; showPassword := showPassword s;
       error := error s; selectedRole := selectedRole s;
       formData := formData s |}).

Definition setShowPassword (v : bool) : JS.M World unit :=
  withUi (fun s =>
    {| step := step s; isLoading := isLoading s; showPassword := v;
       error := error s; selectedRole := selectedRole s;
       formData := formData s |}).

Definition setError (v : string) : JS.M World unit :=
  withUi (fun s =>
    {| step := step s; isLoading := isLoading s;
       showPassword := showPassword s; error := v;
       selectedRole := selectedRole s; formData := formData s |}).

Definition setSelectedRole (v : option UserRole) : JS.M World unit :=
  withUi (fun s =>
    {| step := step s; isLoading := isLoading s;
       showPassword := showPassword s; error := error s;
       selectedRole := v; formData := formData s |}).

(** [setFormData(prev => f prev)] *)
Definition setFormData (f : FormData -> FormData) : JS.M World unit :=
  withUi (fun s =>
    {| step := step s; isLoading := isLoading s;
       showPassword := showPassword s; error := error s;
       selectedRole := selectedRole s; formData := f (formData s) |}).

Definition perform (e : JS.effect) : JS.M World unit :=
  JS.modify (fun w => {| ui := ui w; effects := (effects w ++ [e])%list |}).

(** Truthiness of [selectedRole], a [UserRole | null]. *)
Definition roleTruthy (r : option UserRole) : bool :=
  match r with
  | None => false
  | Some r => JS.truthy (roleName r)
  end.

Definition handleRoleSelect (role : UserRole) : JS.M World unit :=
  setSelectedRole (Some role).

Definition handleNext (snap : PageState) : JS.M World unit :=
  if negb (roleTruthy (selectedRole snap)) then JS.ret tt
  else setStep details.

Definition handleBack : JS.M World unit :=
  (setStep role ;;
   setError "")%js.

Definition handleChange (snap : PageState) (name : FieldName)
  (value : JS.jsstring)
  : JS.M World unit :=
  (setFormData (fun prev => setField prev name value) ;;
   if JS.truthy (error snap) then setError "" else JS.ret tt)%js.

Definition nameMessage : string := "Please fill in your full name".
Definition emailMessage : string := "Please enter your email address".
Definition passwordMessage : string := "Please enter a password".
Definition lengthMessage : string := "Password must be at least 8 characters".
Definition matchMessage : string := "Passwords do not match".

(** [s.length]: the number of UTF-16 code units of the string. *)
Definition strLength (s : JS.jsstring) : Z := JS.str_length s.

Definition validateForm (snap : PageState) : JS.M World unit :=
  let formData := formData snap in
  if negb (JS.str_truthy (firstName formData))
     || negb (JS.str_truthy (lastName formData))
  then JS.throw (JS.ErrorObject nameMessage)
  else if negb (JS.str_truthy (email formData))
  then JS.throw (JS.ErrorObject emailMessage)
  else if negb (JS.str_truthy (password formData))
  then JS.throw (JS.ErrorObject passwordMessage)
  else if strLength (password formData) <? 8
  then JS.throw (JS.ErrorObject lengthMessage)
  else if negb (JS.str_eqb (password formData) (confirmPassword formData))
  then JS.throw (JS.ErrorObject matchMessage)
  else JS.ret tt.

(** [err instanceof Error ? err.message : '...'] *)
Definition messageOf (err : JS.thrown) : string :=
  match err with
  | JS.ErrorObject message => message
  | JS.OtherValue => "Registration failed. Please try again."
  end.

Definition handleSubmit (snap : PageState) : JS.M World unit :=
  (perform JS.PreventDefault ;;
   setIsLoading true ;;
   setError "" ;;
   JS.tryFinally
     (JS.tryCatch
        (validateForm snap ;;
         perform (JS.Delay 2000) ;;
         perform (JS.RouterPush "/dashboard"))
        (fun err => setError (messageOf err)))
     (setIsLoading false))%js.

(** [onClick={() => setShowPassword(!showPassword)}] *)
Definition togglePassword (snap : PageState) : JS.M World unit :=
  setShowPassword (negb (showPassword snap)).

(** The events of the page, each bound to one handler. *)
Inductive Event : Type :=
| RoleSelect (r : UserRole)
| Next
| Back
| Change (name : FieldName) (value : JS.jsstring)
| Submit
| TogglePassword.

Definition handler (ev : Event) (snap : PageState) : JS.M World unit :=
  match ev with
  | RoleSelect r => handleRoleSelect r
  | Next => handleNext snap
  | Back => handleBack
  | Change name value => handleChange snap name value
  | Submit => handleSubmit snap
  | TogglePassword => togglePassword snap
  end.

(** One event: the handler created by the current render runs on the
    store. *)
Definition dispatch (w : World) (ev : Event) : World :=
  snd (handler ev (ui w) w).

Definition run (evs : list Event) (w : World) : World :=
  fold_left dispatch evs w.

(** The states the page can be in: those some sequence of events leads to
    from the initial one. *)
Definition reachable (w : World) : Prop :=
  exists evs, run evs initialWorld = w.

Definition exec {A} (c : JS.M World A) (w : World) : World := snd (c w).
Definition outcome {A} (c : JS.M World A) (w : World) : JS.completion A :=
  fst (c w).

(** The effects a computation adds to the log of [w]. *)
Definition performed {A} (c : JS.M World A) (w : World) : list JS.effect :=
  skipn (length (effects w)) (effects (exec c w)).

(** The conditions the specification lists for a form to be invalid. *)
Definition nameMissing (fd : FormData) : Prop :=
  firstName fd = [] \/ lastName fd = [].
Definition emailMissing (fd : FormData) : Prop := email fd = [].
Definition passwordMissing (fd : FormData) : Prop := password fd = [].
Definition passwordShort (fd : FormData) : Prop :=
  (List.length (password fd) < 8)%nat.
Definition passwordMismatch (fd : FormData) : Prop :=
  password fd <> confirmPassword fd.

(** The invariant of the page: the details step comes with a role. *)
Definition roleChosen (w : World) : Prop :=
  step (ui w) = details -> exists r, selectedRole (ui w) = Some r.

(** Sample states: a complete form, one whose passwords differ, and one
    whose password is three characters outside ASCII, U+65E5 U+672C U+8A9E,
    one code unit each. *)
Definition goodForm : FormData :=
  {| firstName := JS.ofAscii "Ada"; lastName := JS.ofAscii "Lovelace";
     email := JS.ofAscii "ada@example.com";
     password := JS.ofAscii "engine1843";
     confirmPassword := JS.ofAscii "engine1843" |}.

Definition mismatchedForm : FormData :=
  {| firstName := JS.ofAscii "Ada"; lastName := JS.ofAscii "Lovelace";
     email := JS.ofAscii "ada@example.com";
     password := JS.ofAscii "engine1843";
     confirmPassword := JS.ofAscii "engine1834" |}.

Definition shortForm : FormData :=
  {| firstName := JS.ofAscii "Ada"; lastName := JS.ofAscii "Lovelace";
     email := JS.ofAscii "ada@example.com";
     password := [26085; 26412; 35486]%N;
     confirmPassword := [26085; 26412; 35486]%N |}.

Definition detailsState (fd : FormData) : PageState :=
  {| step := details; isLoading := false; showPassword := false; error := "";
     selectedRole := Some applicant; formData := fd |}.

Definition detailsWorld (fd : FormData) : World :=
  {| ui := detailsState fd; effects := [] |}.

End Register.

(** ** The dashboard page ([DashboardPage]) *)

Module Dashboard.

Record Stats : Type := mkStats {
  resumesAnalyzed : Z;
  matchesGenerated : Z;
  optimizationScore : Q;
  lastActivity : string
}.

(** [mockUser.stats], the initial value of [stats]. *)
Definition mockUserStats : Stats :=
  {| resumesAnalyzed := 3; matchesGenerated := 15;
     optimizationScore := 87; lastActivity := "2 hours ago" |}.

Section Doubles.

(** JavaScript numbers are doubles: an arithmetic operation returns the
    exact result rounded to a double.  [fl] is that rounding; a double is a
    rational it leaves unchanged. *)
Variable fl : Q -> Q.

Definition isDouble (x : Q) : Prop := (fl x == x)%Q.

(** The state updater the interval callback passes to [setStats], with the
    value [Math.random()] returns made an argument:
    [prev => ({ ...prev, optimizationScore:
                Math.min(95, prev.optimizationScore + Math.random() * 2) })] *)
Definition tick (prev : Stats) (random : Q) : Stats :=
  {| resumesAnalyzed := resumesAnalyzed prev;
     matchesGenerated := matchesGenerated prev;
     optimizationScore :=
       Qmin 95 (fl (optimizationScore prev + fl (random * 2)));
     lastActivity := lastActivity prev |}.

(** The state after the interval fired once per element of [draws]. *)
Definition ticks (draws : list Q) : Stats := fold_left tick draws mockUserStats.

(** What [Math.random()] may return: a double in [0, 1). *)
Definition isRandom (r : Q) : Prop := (0 <= r /\ r < 1)%Q /\ isDouble r.

(** The scores the page goes through: doubles between 87 and 95. *)
Definition inRange (s : Stats) : Prop :=
  (87 <= optimizationScore s /\ optimizationScore s <= 95)%Q /\
  isDouble (optimizationScore s).

End Doubles.

End Dashboard.

(** ** Row-level security of the [profiles] table *)

Module Schema.

Definition uuid : Type := N.

(** A row of [profiles].  [user_id] is a nullable reference to [users];
    the JSONB and timestamp columns are kept as opaque text. *)
Record Profile : Type := mkProfile {
  id : uuid;
  user_id : option uuid;
  personal_info : option string;
  education : option string;
  experience : option string;
  skills : option string;
  projects : option string;
  certifications : option string;
  created_at : option string;
  updated_at : option string
}.

(** The expressions the policies are written with. *)
Inductive expr : Type :=
| AuthUid                  (* auth.uid() *)
| UserId                   (* the column user_id *)
| Eq (a b : expr).         (* a = b *)

Inductive value : Type :=
| Null
| Uuid (u : uuid)
| Boolean (b : bool).

(** SQL evaluation for a request made as [uid] ([None]: not
    authenticated, [auth.uid()] is NULL) against [row].  A comparison with
    NULL is NULL. *)
Fixpoint eval (uid : option uuid) (row : Profile) (e : expr) : value :=
  match e with
  | AuthUid => match uid with Some u => Uuid u | None => Null end
  | UserId => match user_id row with Some u => Uuid u | None => Null end
  | Eq a b =>
      match eval uid row a, eval uid row b with
      | Uuid x, Uuid y => Boolean (N.eqb x y)
      | Boolean x, Boolean y => Boolean (Bool.eqb x y)
      | _, _ => Null
      end
  end.

(** A policy expression admits a row when it evaluates to true; false and
    NULL both reject. *)
Definition holds (uid : option uuid) (row : Profile) (e : expr) : bool :=
  match eval uid row e with
  | Boolean true => true
  | _ => false
  end.

Inductive command : Type := SELECT | INSERT | UPDATE | DELETE | ALL.

Definition command_eqb (a b : command) : bool :=
  match a, b with
  | SELECT, SELECT | INSERT, INSERT | UPDATE, UPDATE
  | DELETE, DELETE | ALL, ALL => true
  | _, _ => false
  end.

(** [CREATE POLICY name ON table FOR cmd USING (...) WITH CHECK (...)] *)
Record policy : Type := mkPolicy {
  policy_name : string;
  on_table : string;
  for_command : command;
  USING : option expr;
  WITH_CHECK : option expr
}.

Definition profiles_policies : list policy :=
  [ {| policy_name := "Applicants can view own profile";
       on_table := "profiles"; for_command := SELECT;
       USING := Some (Eq AuthUid UserId); WITH_CHECK := None |};
    {| policy_name := "Applicants can update own profile";
       on_table := "profiles"; for_command := UPDATE;
       USING := Some (Eq AuthUid UserId); WITH_CHECK := None |};
    {| policy_name := "Applicants can create own profile";
       on_table := "profiles"; for_command := INSERT;
       USING := None; WITH_CHECK := Some (Eq AuthUid UserId) |} ].

(** The policies that apply to a command: those declared for it or for
    ALL. *)
Definition applicable (c : command) (ps : list policy) : list policy :=
  filter (fun p => command_eqb (for_command p) c || command_eqb (for_command p) ALL) ps.

(** The check a policy makes on a row that is written: its WITH CHECK
    expression, and its USING expression when it has none. *)
Definition check_expr (p : policy) : option expr :=
  match WITH_CHECK p with
  | Some e => Some e
  | None => USING p
  end.

Definition admits (uid : option uuid) (row : Profile) (e : option expr) : bool :=
  match e with
  | Some e => holds uid row e
  | None => false
  end.

(** With row-level security enabled on the table the policies are
    permissive: an existing row is visible to a command when the USING
    expression of some applicable policy admits it, a written row is
    accepted when the check of some applicable policy admits it, and with
    no applicable policy nothing is. *)
Definition visible (c : command) (uid : option uuid) (row : Profile) : bool :=
  existsb (fun p => admits uid row (USING p)) (applicable c profiles_policies).

Definition accepted (c : command) (uid : option uuid) (row : Profile) : bool :=
  existsb (fun p => admits uid row (check_expr p)) (applicable c profiles_policies).

Definition select_row (uid : option uuid) (row : Profile) : bool :=
  visible SELECT uid row.

Definition insert_row (uid : option uuid) (new : Profile) : bool :=
  accepted INSERT uid new.

Definition update_row (uid : option uuid) (old new : Profile) : bool :=
  visible UPDATE uid old && accepted UPDATE uid new.

Definition delete_row (uid : option uuid) (old : Profile) : bool :=
  visible DELETE uid old.

(** Two rows with different owners. *)
Definition aliceProfile : Profile :=
  {| id := 100%N; user_id := Some 3%N; personal_info := None;
     education := None; experience := None; skills := None; projects := None;
     certifications := None; created_at := None; updated_at := None |}.

Definition bobProfile : Profile :=
  {| id := 101%N; user_id := Some 7%N; personal_info := None;
     education := None; experience := None; skills := None; projects := None;
     certifications := None; created_at := None; updated_at := None |}.

End Schema.

(** ** More of the registration page: what the form shows and offers *)

Module RegisterView.
Import Register.

(** The [value] an input shows: the input named [name] is bound to the
    field of [formData] of the same name. *)
Definition getField (fd : FormData) (name : FieldName) : JS.jsstring :=
  match name with
  | firstName_ => firstName fd
  | lastName_ => lastName fd
  | email_ => email fd
  | password_ => password fd
  | confirmPassword_ => confirmPassword fd
  end.

Definition fieldName_eqb (a b : FieldName) : bool :=
  match a, b with
  | firstName_, firstName_ | lastName_, lastName_ | email_, email_
  | password_, password_ | confirmPassword_, confirmPassword_ => true
  | _, _ => false
  end.

(** The events the rendered page offers.  The role step shows the two role
    buttons and a Continue button that is disabled without a role; the
    details step shows the form, whose inputs and buttons are disabled
    while [isLoading]. *)
Definition offered (s : PageState) (ev : Event) : bool :=
  match step s with
  | role =>
      match ev with
      | RoleSelect _ => true
      | Next => roleTruthy (selectedRole s)
      | _ => false
      end
  | details =>
      match ev with
      | Back | Change _ _ | Submit | TogglePassword => negb (isLoading s)
      | _ => false
      end
  end.

(** The states a user can bring the page to. *)
Inductive reachableByUser : World -> Prop :=
| reach_initial : reachableByUser initialWorld
| reach_event (w : World) (ev : Event) :
    reachableByUser w -> offered (ui w) ev = true ->
    reachableByUser (dispatch w ev).

(** The messages [validateForm] can throw. *)
Definition validationMessages : list string :=
  [nameMessage; emailMessage; passwordMessage; lengthMessage; matchMessage].

(** The error is empty or one of the validation messages. *)
Definition knownError (w : World) : Prop :=
  error (ui w) = "" \/ In (error (ui w)) validationMessages.

(** An event the user attempts: it reaches its handler only if the page
    offers it. *)
Definition attempt (w : World) (ev : Event) : World :=
  if offered (ui w) ev then dispatch w ev else w.

Section Browser.

(** Whether the browser takes a value as a valid e-mail address, the test
    behind [type="email"]; the page does not define it. *)
Variable validEmailAddress : JS.jsstring -> bool.

(** Constraint validation of the details form: each of the five inputs is
    [required], and the email input has [type="email"]. *)
Definition satisfiesConstraints (fd : FormData) : bool :=
  JS.str_truthy (firstName fd) && JS.str_truthy (lastName fd)
  && (JS.str_truthy (email fd) && validEmailAddress (email fd))
  && JS.str_truthy (password fd) && JS.str_truthy (confirmPassword fd).

(** Pressing Create Account.  The browser validates the form first; the
    submit event, whose handler is [handleSubmit], fires only if the form
    satisfies its constraints. *)
Definition pressSubmit (w : World) : World :=
  if satisfiesConstraints (formData (ui w)) then attempt w Submit else w.

(** Entering a value into each of the five inputs, then pressing Create
    Account. *)
Definition fillAndSubmit (first last mail pass confirm : JS.jsstring)
  (w : World) : World :=
  pressSubmit
    (fold_left attempt
       [ Change firstName_ first; Change lastName_ last; Change email_ mail;
         Change password_ pass; Change confirmPassword_ confirm ] w).

End Browser.

(** The effects added to the log between [w] and a later world. *)
Definition performedSince (w later : World) : list JS.effect :=
  skipn (length (effects w)) (effects later).

(** A stand-in for the browser's e-mail test: the value contains '@'. *)
Definition hasAtSign (s : JS.jsstring) : bool := existsb (N.eqb 64) s.

End RegisterView.

(** ** More of the dashboard page: the score as displayed *)

Module DashboardView.
Import Dashboard.

(** [Math.round]: the nearest integer, a tie going up. *)
Definition Math_round (x : Q) : Z := Qfloor (x + (1 # 2)).

(** [{Math.round(stats.optimizationScore)}] *)
Definition displayedScore (s : Stats) : Z := Math_round (optimizationScore s).

End DashboardView.

(** ** Row-level security of the other tables *)

Module Rls.
Import Schema.

(** An SQL boolean: [None] is NULL. *)
Definition tv : Type := option bool.

Definition is_true (v : tv) : bool :=
  match v with
  | Some true => true
  | _ => false
  end.

(** [a = b]: NULL when either side is. *)
Definition sql_eq {A} (eqb : A -> A -> bool) (a b : option A) : tv :=
  match a, b with
  | Some x, Some y => Some (eqb x y)
  | _, _ => None
  end.

Definition sql_and (a b : tv) : tv :=
  match a, b with
  | Some false, _ => Some false
  | _, Some false => Some false
  | Some true, Some true => Some true
  | _, _ => None
  end.

Definition sql_or (a b : tv) : tv :=
  match a, b with
  | Some true, _ => Some true
  | _, Some true => Some true
  | Some false, Some false => Some false
  | _, _ => None
  end.

Definition sql_not (a : tv) : tv := option_map negb a.

(** [EXISTS (SELECT 1 FROM rows WHERE cond)]: never NULL. *)
Definition sql_exists {A} (rows : list A) (cond : A -> tv) : tv :=
  Some (existsb (fun r => is_true (cond r)) rows).

Section Engine.

Context {Row : Type}.

(** A policy whose expressions are functions of the row; the requesting
    user and the tables a subquery reads are fixed outside. *)
Record policy : Type := mkPolicy {
  policy_name : string;
  for_command : command;
  USING : option (Row -> tv);
  WITH_CHECK : option (Row -> tv)
}.

Definition applicable (c : command) (ps : list policy) : list policy :=
  filter (fun p => command_eqb (for_command p) c
                   || command_eqb (for_command p) ALL) ps.

Definition check_expr (p : policy) : option (Row -> tv) :=
  match WITH_CHECK p with
  | Some e => Some e
  | None => USING p
  end.

Definition admits (row : Row) (e : option (Row -> tv)) : bool :=
  match e with
  | Some e => is_true (e row)
  | None => false
  end.

Definition visible (c : command) (ps : list policy) (row : Row) : bool :=
  existsb (fun p => admits row (USING p)) (applicable c ps).

Definition accepted (c : command) (ps : list policy) (row : Row) : bool :=
  existsb (fun p => admits row (check_expr p)) (applicable c ps).

Definition selects (ps : list policy) (row : Row) : bool :=
  visible SELECT ps row.

Definition inserts (ps : list policy) (new : Row) : bool :=
  accepted INSERT ps new.

Definition updates (ps : list policy) (old new : Row) : bool :=
  visible UPDATE ps old && accepted UPDATE ps new.

Definition deletes (ps : list policy) (old : Row) : bool :=
  visible DELETE ps old.

End Engine.

Arguments policy Row : clear implicits.

(** *** users *)

Module Users.

Record row : Type := mkRow {
  id : uuid;
  email : string;
  role : string;
  name : option string;
  created_at : option string;
  updated_at : option string
}.

(** The policies on [users], for a request made as [uid]. *)
Definition policies (uid : option uuid) : list (policy row) :=
  [ {| policy_name := "Users can view own profile";
       for_command := SELECT;
       USING := Some (fun r => sql_eq N.eqb uid (Some (id r)));
       WITH_CHECK := None |};
    {| policy_name := "Users can update own profile";
       for_command := UPDATE;
       USING := Some (fun r => sql_eq N.eqb uid (Some (id r)));
       WITH_CHECK := None |} ].

(** [role := v], the other columns kept. *)
Definition withRole (r : row) (v : string) : row :=
  {| id := id r; email := email r; role := v; name := name r;
     created_at := created_at r; updated_at := updated_at r |}.

End Users.

(** *** jobs *)

Module Jobs.

Record row : Type := mkRow {
  id : uuid;
  user_id : option uuid;
  title : string;
  description : option string;
  criteria : option string;
  status : option string;
  created_at : option string;
  updated_at : option string
}.

(** [FROM users] inside a policy reads [users] as the requesting user may:
    through the SELECT policy of [users]. *)
Definition from_users (uid : option uuid) (users : list Users.row)
  : list Users.row :=
  filter (selects (Users.policies uid)) users.

Definition policies (uid : option uuid) (users : list Users.row)
  : list (policy row) :=
  [ {| policy_name := "Recruiters can view all jobs";
       for_command := SELECT;
       USING := Some (fun _ =>
         sql_exists (from_users uid users) (fun u =>
           sql_and (sql_eq N.eqb (Some (Users.id u)) uid)
                   (sql_eq String.eqb (Some (Users.role u)) (Some "recruiter"))));
       WITH_CHECK := None |};
    {| policy_name := "Recruiters can edit own jobs";
       for_command := ALL;
       USING := Some (fun r => sql_eq N.eqb uid (user_id r));
       WITH_CHECK := None |} ].

End Jobs.

(** *** applications *)

Module Applications.

Record row : Type := mkRow {
  id : uuid;
  applicant_id : option uuid;
  job_id : option uuid;
  resume_url : option string;
  cover_letter_url : option string;
  feedback : option string;
  status : option string;
  created_at : option string
}.

(** [FROM jobs] inside a policy, read through the SELECT policies of
    [jobs]. *)
Definition from_jobs (uid : option uuid) (users : list Users.row)
  (jobs : list Jobs.row) : list Jobs.row :=
  filter (selects (Jobs.policies uid users)) jobs.

(** [EXISTS (SELECT 1 FROM jobs WHERE jobs.id = applications.job_id
                                  AND jobs.user_id = auth.uid())] *)
Definition job_is_mine (uid : option uuid) (users : list Users.row)
  (jobs : list Jobs.row) (a : row) : tv :=
  sql_exists (from_jobs uid users jobs) (fun j =>
    sql_and (sql_eq N.eqb (Some (Jobs.id j)) (job_id a))
            (sql_eq N.eqb (Jobs.user_id j) uid)).

Definition policies (uid : option uuid) (users : list Users.row)
  (jobs : list Jobs.row) : list (policy row) :=
  [ {| policy_name := "Users can view relevant applications";
       for_command := SELECT;
       USING := Some (fun a =>
         sql_or (sql_eq N.eqb uid (applicant_id a))
                (job_is_mine uid users jobs a));
       WITH_CHECK := None |};
    {| policy_name := "Applicants can create applications";
       for_command := INSERT;
       USING := None;
       WITH_CHECK := Some (fun a => sql_eq N.eqb uid (applicant_id a)) |};
    {| policy_name := "Recruiters can update application status";
       for_command := UPDATE;
       USING := Some (job_is_mine uid users jobs);
       WITH_CHECK := None |} ].

End Applications.

(** The three tables the policies read and the cascade writes. *)
Record Database : Type := mkDatabase {
  users : list Users.row;
  jobs : list Jobs.row;
  applications : list Applications.row
}.

(** [DELETE FROM jobs WHERE id = jid], issued as [uid]: the statement
    removes the jobs with that id that the policies let [uid] delete. *)
Definition job_deleted (uid : option uuid) (jid : uuid) (db : Database)
  (j : Jobs.row) : bool :=
  N.eqb (Jobs.id j) jid && deletes (Jobs.policies uid (users db)) j.

(** [applications.job_id REFERENCES jobs(id) ON DELETE CASCADE]: an
    application goes with the job it refers to.  The referential action
    does not consult the policies of [applications]. *)
Definition cascades (uid : option uuid) (jid : uuid) (db : Database)
  (a : Applications.row) : bool :=
  existsb (fun j =>
             job_deleted uid jid db j
             && is_true (sql_eq N.eqb (Applications.job_id a) (Some (Jobs.id j))))
          (jobs db).

Definition delete_job (uid : option uuid) (jid : uuid) (db : Database)
  : Database :=
  {| users := users db;
     jobs := filter (fun j => negb (job_deleted uid jid db j)) (jobs db);
     applications :=
       filter (fun a => negb (cascades uid jid db a)) (applications db) |}.

(** What the specification of the tables asks of the requesting user. *)
Definition isRecruiter (uid : uuid) (users : list Users.row) : Prop :=
  exists u, In u users /\ Users.id u = uid /\ Users.role u = "recruiter".

Definition ownsJobOf (uid : uuid) (jobs : list Jobs.row)
  (a : Applications.row) : Prop :=
  exists j, In j jobs /\ Applications.job_id a = Some (Jobs.id j) /\
            Jobs.user_id j = Some uid.

(** Sample rows. *)
Definition ada : Users.row :=
  {| Users.id := 3%N; Users.email := "ada@example.com";
     Users.role := "applicant"; Users.name := None;
     Users.created_at := None; Users.updated_at := None |}.

Definition grace : Users.row :=
  {| Users.id := 7%N; Users.email := "grace@example.com";
     Users.role := "recruiter"; Users.name := None;
     Users.created_at := None; Users.updated_at := None |}.

Definition compilerJob : Jobs.row :=
  {| Jobs.id := 50%N; Jobs.user_id := Some 7%N; Jobs.title := "Compiler engineer";
     Jobs.description := None; Jobs.criteria := None;
     Jobs.status := Some "active"; Jobs.created_at := None;
     Jobs.updated_at := None |}.

Definition adasJob : Jobs.row :=
  {| Jobs.id := 51%N; Jobs.user_id := Some 3%N; Jobs.title := "Analyst";
     Jobs.description := None; Jobs.criteria := None;
     Jobs.status := Some "active"; Jobs.created_at := None;
     Jobs.updated_at := None |}.

Definition adasApplication : Applications.row :=
  {| Applications.id := 90%N; Applications.applicant_id := Some 3%N;
     Applications.job_id := Some 50%N; Applications.resume_url := None;
     Applications.cover_letter_url := None; Applications.feedback := None;
     Applications.status := Some "submitted";
     Applications.created_at := None |}.

End Rls.

(** ** The validation trigger of the profiles table *)

Module ProfileTrigger.
Import Rls.

(** A JSONB value. *)
#[warnings="-register-all"] Inductive jsonb : Type :=
| JNull
| JBool (b : bool)
| JNumber (q : Q)
| JString (s : string)
| JArray (items : list jsonb)
| JObject (members : list (string * jsonb)).

Definition isString (key : string) (j : jsonb) : bool :=
  match j with
  | JString s => String.eqb s key
  | _ => false
  end.

(** [j ? key]: the string is a top-level key of an object, an element of an
    array, or the value itself when [j] is a string. *)
Definition jsonb_exists (j : jsonb) (key : string) : bool :=
  match j with
  | JObject members => existsb (fun m => String.eqb (fst m) key) members
  | JArray items => existsb (isString key) items
  | JString s => String.eqb s key
  | _ => false
  end.

Definition jsonb_typeof (j : jsonb) : string :=
  match j with
  | JNull => "null"
  | JBool _ => "boolean"
  | JNumber _ => "number"
  | JString _ => "string"
  | JArray _ => "array"
  | JObject _ => "object"
  end.

(** The columns of the row being written that the trigger reads, NULL
    being [None], and the row's other columns. *)
Record NewRow : Type := mkNewRow {
  user_id : option Schema.uuid;
  personal_info : option jsonb;
  education : option jsonb;
  experience : option jsonb;
  skills : option jsonb;
  projects : option jsonb;
  certifications : option jsonb
}.

Definition personalInfoMessage : string :=
  "personal_info must contain name and contact".
Definition educationMessage : string := "education must be an array".

(** [validate_profile_data()]: [inl] is the exception raised, [inr] the
    row returned.  An [IF] whose condition is NULL is not taken. *)
Definition validate_profile_data (NEW : NewRow) : string + NewRow :=
  if is_true
       (sql_not
          (sql_and (option_map (fun j => jsonb_exists j "name") (personal_info NEW))
                   (option_map (fun j => jsonb_exists j "contact") (personal_info NEW))))
  then inl personalInfoMessage
  else if is_true
            (sql_not
               (sql_eq String.eqb (option_map jsonb_typeof (education NEW))
                       (Some "array")))
  then inl educationMessage
  else inr NEW.

(** What the two checks let through: a NULL column, or a value of the
    required shape. *)
Definition personalInfoOk (NEW : NewRow) : bool :=
  match personal_info NEW with
  | None => true
  | Some j => jsonb_exists j "name" && jsonb_exists j "contact"
  end.

Definition educationOk (NEW : NewRow) : bool :=
  match education NEW with
  | None => true
  | Some (JArray _) => true
  | Some _ => false
  end.

(** A row with every column NULL. *)
Definition nullRow : NewRow :=
  {| user_id := None; personal_info := None; education := None;
     experience := None; skills := None; projects := None;
     certifications := None |}.

Definition completeRow : NewRow :=
  {| user_id := Some 3%N;
     personal_info :=
       Some (JObject [("name", JString "Ada"); ("contact", JString "ada@example.com")]);
     education := Some (JArray []);
     experience := None; skills := None; projects := None;
     certifications := None |}.

End ProfileTrigger.

(** * Properties *)

(** ** Generic facts about the JavaScript layer *)

Module JSFacts.

Lemma truthy_false_iff (s : string) : JS.truthy s = false <-> s = "".
Proof.
  unfold JS.truthy. destruct (String.eqb_spec s ""); simpl; split; congruence.
Qed.

Lemma truthy_true_iff (s : string) : JS.truthy s = true <-> s <> "".
Proof.
  unfold JS.truthy. destruct (String.eqb_spec s ""); simpl; split; congruence.
Qed.

Lemma includes_In (arr : list string) (x : string) :
  JS.includes arr x = true <-> In x arr.
Proof.
  unfold JS.includes. rewrite existsb_exists. split.
  - intros [y [Hin Heq]]. apply String.eqb_eq in Heq. now subst.
  - intros Hin. exists x. split; [assumption | apply String.eqb_refl].
Qed.

Lemma includes_not_In (arr : list string) (x : string) :
  JS.includes arr x = false <-> ~ In x arr.
Proof.
  rewrite <- includes_In. destruct (JS.includes arr x); split; congruence.
Qed.

Lemma str_truthy_false_iff (s : JS.jsstring) : JS.str_truthy s = false <-> s = [].
Proof. destruct s; simpl; split; congruence. Qed.

Lemma str_truthy_true_iff (s : JS.jsstring) : JS.str_truthy s = true <-> s <> [].
Proof. destruct s; simpl; split; congruence. Qed.

Lemma str_eqb_spec (a b : JS.jsstring) : reflect (a = b) (JS.str_eqb a b).
Proof.
  revert b. induction a as [| x a IH]; intros [| y b]; simpl;
    try (constructor; congruence).
  destruct (N.eqb_spec x y) as [-> | Hne]; simpl.
  - destruct (IH b) as [-> | Hne]; constructor; congruence.
  - constructor. congruence.
Qed.

(** Past its bound the counting loop is over, whatever fuel is left. *)
Lemma forUpTo_done {W} (fuel : nat) (i bound stride : Z) (body : Z -> JS.M W unit) :
  i > bound -> JS.forUpTo fuel i bound stride body = JS.ret tt.
Proof.
  intros Hgt. destruct fuel; simpl;
    destruct (Z.leb_spec i bound); (reflexivity || lia).
Qed.

End JSFacts.

(** ** The résumé upload page *)

Module UploadSpec.
Import Upload.

Section WithConfig.

Context {config : UploadConfig} {format : NumberFormat}.

Lemma fileTypeMessage_truthy : JS.truthy fileTypeMessage = true.
Proof. reflexivity. Qed.

Lemma fileSizeMessage_truthy : JS.truthy fileSizeMessage = true.
Proof. reflexivity. Qed.

Lemma validateFile_type_rejected (f : File) :
  ~ In (type f) acceptedTypes -> validateFile f = Some fileTypeMessage.
Proof.
  intros Hno. unfold validateFile, ACCEPTED_TYPES.
  apply JSFacts.includes_not_In in Hno. now rewrite Hno.
Qed.

Lemma validateFile_size_rejected (f : File) :
  In (type f) acceptedTypes -> size f > maxSize ->
  validateFile f = Some fileSizeMessage.
Proof.
  intros Hin Hgt. unfold validateFile, ACCEPTED_TYPES.
  apply JSFacts.includes_In in Hin. rewrite Hin. simpl.
  destruct (Z.gtb_spec (size f) maxSize); [reflexivity | lia].
Qed.

Lemma validateFile_accepted (f : File) :
  In (type f) acceptedTypes -> size f <= maxSize -> validateFile f = None.
Proof.
  intros Hin Hle. unfold validateFile, ACCEPTED_TYPES.
  apply JSFacts.includes_In in Hin. rewrite Hin. simpl.
  destruct (Z.gtb_spec (size f) maxSize); [lia | reflexivity].
Qed.

(** The three cases cover every file. *)
Lemma validateFile_cases (f : File) :
  (~ In (type f) acceptedTypes /\ validateFile f = Some fileTypeMessage) \/
  (In (type f) acceptedTypes /\ size f > maxSize /\
   validateFile f = Some fileSizeMessage) \/
  (In (type f) acceptedTypes /\ size f <= maxSize /\ validateFile f = None).
Proof.
  destruct (in_dec string_dec (type f) acceptedTypes) as [Hin | Hno].
  - destruct (Z_gt_le_dec (size f) maxSize) as [Hgt | Hle].
    + right; left. auto using validateFile_size_rejected.
    + right; right. auto using validateFile_accepted.
  - left. auto using validateFile_type_rejected.
Qed.

Lemma validateFile_truthy (f : File) (message : string) :
  validateFile f = Some message -> JS.truthy message = true.
Proof.
  destruct (validateFile_cases f) as [[_ H] | [(_ & _ & H) | (_ & _ & H)]];
    rewrite H; intros [= <-]; reflexivity.
Qed.

(** C1.  [validateFile] returns a message exactly when the file's MIME type
    is not an accepted one or its size exceeds the maximum, and null exactly
    when the type is accepted and the size is within the limit; the type is
    checked first, so a file failing both gets the file-type message. *)
Theorem validateFile_spec (f : File) :
  ((exists message, validateFile f = Some message) <->
     ~ In (type f) acceptedTypes \/ size f > maxSize) /\
  (validateFile f = None <->
     In (type f) acceptedTypes /\ size f <= maxSize) /\
  (~ In (type f) acceptedTypes ->
     validateFile f = Some fileTypeMessage) /\
  (In (type f) acceptedTypes -> size f > maxSize ->
     validateFile f = Some fileSizeMessage).
Proof.
  split; [| split; [| split]].
  - destruct (validateFile_cases f) as [[Hno H] | [(Hin & Hgt & H) | (Hin & Hle & H)]];
      rewrite H; split.
    + intros _. now left.
    + intros _. now eexists.
    + intros _. now right.
    + intros _. now eexists.
    + intros [message Hm]. discriminate.
    + intros [Hno | Hgt]; [contradiction | lia].
  - destruct (validateFile_cases f) as [[Hno H] | [(Hin & Hgt & H) | (Hin & Hle & H)]];
      rewrite H; split; try discriminate; try tauto.
    + intros [_ Hle]. lia.
  - apply validateFile_type_rejected.
  - apply validateFile_size_rejected.
Qed.

Lemma handleFileSelect_rejected (f : File) (message : string) (w : World) :
  validateFile f = Some message ->
  handleFileSelect f w = setError message w.
Proof.
  intros H. unfold handleFileSelect. rewrite H.
  now rewrite (validateFile_truthy f message H).
Qed.

Lemma handleFileSelect_accepted (f : File) (w : World) :
  validateFile f = None ->
  handleFileSelect f w =
  (setFile (Some f) ;; setError "" ;; setUploadState idle)%js w.
Proof.
  intros H. unfold handleFileSelect. now rewrite H.
Qed.

(** C4.  When [validateFile] rejects the selected file, [handleFileSelect]
    sets the error to the validation message and leaves the selected file,
    the upload state and the upload progress as they were; when it accepts
    the file, the file becomes the selected one, the error is cleared and
    the upload state is 'idle'. *)
Theorem handleFileSelect_atomic (f : File) (w : World) :
  (forall message, validateFile f = Some message ->
     error (ui (exec (handleFileSelect f) w)) = message /\
     file (ui (exec (handleFileSelect f) w)) = file (ui w) /\
     uploadState (ui (exec (handleFileSelect f) w)) = uploadState (ui w) /\
     uploadProgress (ui (exec (handleFileSelect f) w)) = uploadProgress (ui w)) /\
  (validateFile f = None ->
     file (ui (exec (handleFileSelect f) w)) = Some f /\
     error (ui (exec (handleFileSelect f) w)) = "" /\
     uploadState (ui (exec (handleFileSelect f) w)) = idle).
Proof.
  split.
  - intros message H. unfold exec.
    rewrite (handleFileSelect_rejected f message w H). simpl. auto.
  - intros H. unfold exec.
    rewrite (handleFileSelect_accepted f w H). simpl. auto.
Qed.

End WithConfig.

Lemma handleFileSelect_atomic_witness :
  (error (ui (exec (@handleFileSelect sampleConfig sampleFormat photoPng) selectedWorld))
     = "Please upload a valid file type: .pdf, .docx" /\
   file (ui (exec (@handleFileSelect sampleConfig sampleFormat photoPng) selectedWorld))
     = Some resumePdf /\
   uploadState (ui (exec (@handleFileSelect sampleConfig sampleFormat photoPng) selectedWorld))
     = idle /\
   uploadProgress (ui (exec (@handleFileSelect sampleConfig sampleFormat photoPng) selectedWorld))
     = 0) /\
  (file (ui (exec (@handleFileSelect sampleConfig sampleFormat resumePdf) emptyWorld))
     = Some resumePdf /\
   error (ui (exec (@handleFileSelect sampleConfig sampleFormat resumePdf) emptyWorld))
     = "" /\
   uploadState (ui (exec (@handleFileSelect sampleConfig sampleFormat resumePdf) emptyWorld))
     = idle).
Proof.
  split.
  - apply (proj1 (@handleFileSelect_atomic sampleConfig sampleFormat photoPng selectedWorld)).
    reflexivity.
  - apply (proj2 (@handleFileSelect_atomic sampleConfig sampleFormat resumePdf emptyWorld)).
    reflexivity.
Defined.

Lemma validateFile_spec_witness :
  @validateFile sampleConfig sampleFormat photoPng
    = Some "Please upload a valid file type: .pdf, .docx" /\
  @validateFile sampleConfig sampleFormat resumePdf = None.
Proof.
  split.
  - apply (proj1 (proj2 (proj2 (@validateFile_spec sampleConfig sampleFormat photoPng)))).
    simpl. intros [H | []]. discriminate.
  - apply (proj2 (proj1 (proj2 (@validateFile_spec sampleConfig sampleFormat resumePdf)))).
    simpl. split; [now left | lia].
Defined.

(** C9.  Whatever the state [removeFile] is called in, afterwards no file
    is selected, the upload state is 'idle' and the error is empty; the
    file input, if mounted, has had its value set to the empty string, and
    the input shown by the next render has an empty value either way; the
    card renders as it does in the initial state. *)
Theorem removeFile_restores (w : World) :
  outcome removeFile w = JS.Normal tt /\
  file (ui (exec removeFile w)) = None /\
  uploadState (ui (exec removeFile w)) = idle /\
  error (ui (exec removeFile w)) = "" /\
  fileInputRef (exec removeFile w)
    = option_map (fun _ => {| value := "" |}) (fileInputRef w) /\
  fileInputRef (commit (exec removeFile w)) = Some {| value := "" |} /\
  effects (exec removeFile w) = effects w /\
  render (ui (exec removeFile w)) = render initialState.
Proof.
  unfold exec, outcome, removeFile.
  destruct w as [s [input |] log]; simpl; repeat split; reflexivity.
Qed.

(** With no file selected [uploadFile] returns at once. *)
Lemma uploadFile_no_file (fuel : nat) (snap : PageState) (w : World) :
  file snap = None -> uploadFile fuel snap w = (JS.Normal tt, w).
Proof. intros H. unfold uploadFile. now rewrite H. Qed.

(** Eleven iterations are enough for the progress loop, and more change
    nothing: the run of [uploadFile] on a selected file. *)
Lemma uploadFile_run (fuel : nat) (snap : PageState) (w : World) (f : File) :
  (11 <= fuel)%nat -> file snap = Some f ->
  uploadFile fuel snap w =
  (JS.Normal tt,
   {| ui := {| file := file (ui w); uploadState := completed;
               uploadProgress := 100; error := "";
               processingStatus := "Resume processed successfully!" |};
      fileInputRef := fileInputRef w;
      effects := (effects w ++ simulatedEffects)%list |}).
Proof.
  intros Hfuel Hfile. unfold uploadFile. rewrite Hfile.
  do 11 (destruct fuel as [| fuel]; [lia |]).
  unfold simulatedEffects. cbn.
  rewrite JSFacts.forUpTo_done by lia.
  unfold JS.tryCatch, JS.bind. cbn.
  repeat rewrite <- app_assoc. reflexivity.
Qed.

Lemma simulatedEffects_no_request : ~ sendsRequest simulatedEffects.
Proof.
  intros (url & body & Hin). unfold simulatedEffects in Hin. simpl in Hin.
  repeat (destruct Hin as [Hin | Hin]; [discriminate |]). exact Hin.
Qed.

(** C3, as the code has it.  On a selected file, given the eleven
    iterations its progress loop needs, [uploadFile] returns normally
    having only waited on timers and scheduled the redirect to the analysis
    page, and leaves the upload state 'completed' with progress 100, an
    empty error and the success status; it adds no HTTP request to the
    log, so no endpoint has a say in the outcome. *)
Theorem uploadFile_simulated (fuel : nat) (snap : PageState) (w : World) (f : File) :
  (11 <= fuel)%nat -> file snap = Some f ->
  outcome (uploadFile fuel snap) w = JS.Normal tt /\
  uploadState (ui (exec (uploadFile fuel snap) w)) = completed /\
  uploadProgress (ui (exec (uploadFile fuel snap) w)) = 100 /\
  error (ui (exec (uploadFile fuel snap) w)) = "" /\
  processingStatus (ui (exec (uploadFile fuel snap) w))
    = "Resume processed successfully!" /\
  file (ui (exec (uploadFile fuel snap) w)) = file (ui w) /\
  effects (exec (uploadFile fuel snap) w) = (effects w ++ simulatedEffects)%list /\
  (forall url body,
     In (JS.HttpRequest url body) (effects (exec (uploadFile fuel snap) w)) ->
     In (JS.HttpRequest url body) (effects w)).
Proof.
  intros Hfuel Hfile. unfold outcome, exec.
  rewrite (uploadFile_run fuel snap w f Hfuel Hfile). simpl.
  repeat split; try reflexivity.
  intros url body Hin. apply in_app_or in Hin as [Hold | Hnew]; [exact Hold |].
  exfalso. apply simulatedEffects_no_request. now exists url, body.
Qed.

Lemma uploadFile_simulated_witness :
  outcome (uploadFile 11 (ui selectedWorld)) selectedWorld = JS.Normal tt /\
  uploadState (ui (exec (uploadFile 11 (ui selectedWorld)) selectedWorld)) = completed /\
  effects (exec (uploadFile 11 (ui selectedWorld)) selectedWorld) = simulatedEffects.
Proof.
  assert (Hfuel : (11 <= 11)%nat) by lia.
  assert (Hfile : file (ui selectedWorld) = Some resumePdf) by reflexivity.
  destruct (uploadFile_simulated 11 (ui selectedWorld) selectedWorld resumePdf
              Hfuel Hfile) as (Hout & Hstate & _ & _ & _ & _ & Hlog & _).
  repeat split; assumption.
Defined.

(** C3, as the specification has it, fails: a file is selected, the run
    ends in 'completed', and no request was made at all. *)
Lemma uploadFile_sends_no_request :
  file (ui selectedWorld) = Some resumePdf /\
  uploadState (ui (exec (uploadFile 11 (ui selectedWorld)) selectedWorld)) = completed /\
  ~ sendsRequest (effects (exec (uploadFile 11 (ui selectedWorld)) selectedWorld)).
Proof.
  repeat split. exact simulatedEffects_no_request.
Qed.

End UploadSpec.

(** ** The registration page *)

Module RegisterSpec.
Import Register.

Lemma strLength_short (s : JS.jsstring) :
  (strLength s <? 8) = true <-> (List.length s < 8)%nat.
Proof. unfold strLength, JS.str_length. rewrite Z.ltb_lt. lia. Qed.

(** [validateForm] only reads the snapshot: it leaves the store alone, and
    which of its six exits it takes depends on the form data alone. *)
Lemma validateForm_cases (snap : PageState) :
  let fd := formData snap in
  (nameMissing fd /\
   forall w, validateForm snap w = (JS.Throw (JS.ErrorObject nameMessage), w)) \/
  (~ nameMissing fd /\ emailMissing fd /\
   forall w, validateForm snap w = (JS.Throw (JS.ErrorObject emailMessage), w)) \/
  (~ nameMissing fd /\ ~ emailMissing fd /\ passwordMissing fd /\
   forall w, validateForm snap w = (JS.Throw (JS.ErrorObject passwordMessage), w)) \/
  (~ nameMissing fd /\ ~ emailMissing fd /\ ~ passwordMissing fd /\
   passwordShort fd /\
   forall w, validateForm snap w = (JS.Throw (JS.ErrorObject lengthMessage), w)) \/
  (~ nameMissing fd /\ ~ emailMissing fd /\ ~ passwordMissing fd /\
   ~ passwordShort fd /\ passwordMismatch fd /\
   forall w, validateForm snap w = (JS.Throw (JS.ErrorObject matchMessage), w)) \/
  (~ nameMissing fd /\ ~ emailMissing fd /\ ~ passwordMissing fd /\
   ~ passwordShort fd /\ ~ passwordMismatch fd /\
   forall w, validateForm snap w = (JS.Normal tt, w)).
Proof.
  intros fd. unfold validateForm. fold fd.
  unfold nameMissing, emailMissing, passwordMissing, passwordShort, passwordMismatch.
  destruct (JS.str_truthy (firstName fd)) eqn:Hfirst; simpl.
  2:{ left. split; [| reflexivity].
      left. now apply JSFacts.str_truthy_false_iff. }
  destruct (JS.str_truthy (lastName fd)) eqn:Hlast; simpl.
  2:{ left. split; [| reflexivity].
      right. now apply JSFacts.str_truthy_false_iff. }
  apply JSFacts.str_truthy_true_iff in Hfirst, Hlast.
  assert (Hname : ~ (firstName fd = [] \/ lastName fd = [])) by tauto.
  right.
  destruct (JS.str_truthy (email fd)) eqn:Hemail; simpl.
  2:{ left. apply JSFacts.str_truthy_false_iff in Hemail. auto. }
  apply JSFacts.str_truthy_true_iff in Hemail. right.
  destruct (JS.str_truthy (password fd)) eqn:Hpass; simpl.
  2:{ left. apply JSFacts.str_truthy_false_iff in Hpass. auto. }
  apply JSFacts.str_truthy_true_iff in Hpass. right.
  destruct (strLength (password fd) <? 8) eqn:Hlen.
  { left. apply strLength_short in Hlen. auto. }
  assert (Hlong : ~ (List.length (password fd) < 8)%nat).
  { intros Hshort. apply strLength_short in Hshort. congruence. }
  right.
  destruct (JSFacts.str_eqb_spec (password fd) (confirmPassword fd)) as [Heq | Hne]; simpl.
  - right. repeat (split; [assumption |]). split; [| reflexivity]. tauto.
  - left. auto 7.
Qed.

(** C2.  [validateForm] throws exactly when the name is incomplete, the
    email is empty, the password is empty, the password has fewer than 8
    characters (UTF-16 code units, as [length] counts them), or the
    password differs from its confirmation; the checks
    run in that order, so the message thrown is that of the first
    condition that holds; otherwise it returns normally.  It never changes
    the store. *)
Theorem validateForm_spec (snap : PageState) (w : World) :
  ((exists e, outcome (validateForm snap) w = JS.Throw e) <->
     nameMissing (formData snap) \/ emailMissing (formData snap) \/
     passwordMissing (formData snap) \/ passwordShort (formData snap) \/
     passwordMismatch (formData snap)) /\
  (nameMissing (formData snap) ->
     outcome (validateForm snap) w = JS.Throw (JS.ErrorObject nameMessage)) /\
  (~ nameMissing (formData snap) -> emailMissing (formData snap) ->
     outcome (validateForm snap) w = JS.Throw (JS.ErrorObject emailMessage)) /\
  (~ nameMissing (formData snap) -> ~ emailMissing (formData snap) ->
   passwordMissing (formData snap) ->
     outcome (validateForm snap) w = JS.Throw (JS.ErrorObject passwordMessage)) /\
  (~ nameMissing (formData snap) -> ~ emailMissing (formData snap) ->
   ~ passwordMissing (formData snap) -> passwordShort (formData snap) ->
     outcome (validateForm snap) w = JS.Throw (JS.ErrorObject lengthMessage)) /\
  (~ nameMissing (formData snap) -> ~ emailMissing (formData snap) ->
   ~ passwordMissing (formData snap) -> ~ passwordShort (formData snap) ->
   passwordMismatch (formData snap) ->
     outcome (validateForm snap) w = JS.Throw (JS.ErrorObject matchMessage)) /\
  (~ nameMissing (formData snap) -> ~ emailMissing (formData snap) ->
   ~ passwordMissing (formData snap) -> ~ passwordShort (formData snap) ->
   ~ passwordMismatch (formData snap) ->
     outcome (validateForm snap) w = JS.Normal tt) /\
  exec (validateForm snap) w = w.
Proof.
  unfold outcome, exec.
  destruct (validateForm_cases snap)
    as [(H1 & E) | [(N1 & H2 & E) | [(N1 & N2 & H3 & E) |
       [(N1 & N2 & N3 & H4 & E) | [(N1 & N2 & N3 & N4 & H5 & E) |
        (N1 & N2 & N3 & N4 & N5 & E)]]]]];
    rewrite (E w); simpl.
  all: split; [split |].
  all: try (intros _; tauto).
  all: try (intros _; eexists; reflexivity).
  all: try (intros [e He]; discriminate).
  all: repeat split; intros; try reflexivity; try tauto.
Qed.

Lemma validateForm_spec_witness :
  outcome (validateForm (detailsState mismatchedForm)) (detailsWorld mismatchedForm)
    = JS.Throw (JS.ErrorObject "Passwords do not match") /\
  outcome (validateForm (detailsState goodForm)) (detailsWorld goodForm)
    = JS.Normal tt /\
  outcome (validateForm (detailsState shortForm)) (detailsWorld shortForm)
    = JS.Throw (JS.ErrorObject "Password must be at least 8 characters").
Proof.
  pose proof (validateForm_spec (detailsState mismatchedForm)
                (detailsWorld mismatchedForm)) as (_ & _ & _ & _ & _ & Hbad & _).
  pose proof (validateForm_spec (detailsState goodForm)
                (detailsWorld goodForm)) as (_ & _ & _ & _ & _ & _ & Hgood & _).
  pose proof (validateForm_spec (detailsState shortForm)
                (detailsWorld shortForm)) as (_ & _ & _ & _ & Hshort & _).
  split; [| split].
  - apply Hbad; unfold nameMissing, emailMissing, passwordMissing,
      passwordShort, passwordMismatch; simpl;
      try (intros [H | H]; discriminate); try discriminate; lia.
  - apply Hgood; unfold nameMissing, emailMissing, passwordMissing,
      passwordShort, passwordMismatch; simpl;
      try (intros [H | H]; discriminate); try discriminate;
      try lia; intros H; now apply H.
  - apply Hshort; unfold nameMissing, emailMissing, passwordMissing,
      passwordShort; simpl;
      try (intros [H | H]; discriminate); try discriminate; lia.
Defined.

(** What [handleSubmit] does when validation throws, and when it passes. *)
Lemma handleSubmit_invalid (snap : PageState) (w : World) (e : JS.thrown) :
  outcome (validateForm snap) w = JS.Throw e ->
  handleSubmit snap w =
  (JS.Normal tt,
   {| ui := {| step := step (ui w); isLoading := false;
               showPassword := showPassword (ui w); error := messageOf e;
               selectedRole := selectedRole (ui w);
               formData := formData (ui w) |};
      effects := (effects w ++ [JS.PreventDefault])%list |}).
Proof.
  unfold outcome. intros H. unfold handleSubmit.
  destruct (validateForm_cases snap)
    as [(_ & E) | [(_ & _ & E) | [(_ & _ & _ & E) |
       [(_ & _ & _ & _ & E) | [(_ & _ & _ & _ & _ & E) |
        (_ & _ & _ & _ & _ & E)]]]]];
    rewrite (E w) in H; simpl in H; try discriminate;
    injection H as <-;
    unfold JS.bind, JS.tryFinally, JS.tryCatch; cbn; rewrite E; reflexivity.
Qed.

Lemma handleSubmit_valid (snap : PageState) (w : World) :
  outcome (validateForm snap) w = JS.Normal tt ->
  handleSubmit snap w =
  (JS.Normal tt,
   {| ui := {| step := step (ui w); isLoading := false;
               showPassword := showPassword (ui w); error := "";
               selectedRole := selectedRole (ui w);
               formData := formData (ui w) |};
      effects := (effects w ++ [JS.PreventDefault; JS.Delay 2000;
                                JS.RouterPush "/dashboard"])%list |}).
Proof.
  unfold outcome. intros H. unfold handleSubmit.
  destruct (validateForm_cases snap)
    as [(_ & E) | [(_ & _ & E) | [(_ & _ & _ & E) |
       [(_ & _ & _ & _ & E) | [(_ & _ & _ & _ & _ & E) |
        (_ & _ & _ & _ & _ & E)]]]]];
    rewrite (E w) in H; simpl in H; try discriminate.
  unfold JS.bind, JS.tryFinally, JS.tryCatch; cbn. rewrite E. cbn.
  repeat rewrite <- app_assoc. reflexivity.
Qed.

Lemma performed_app {A} (c : JS.M World A) (w : World) (l : list JS.effect) :
  effects (exec c w) = (effects w ++ l)%list -> performed c w = l.
Proof.
  intros H. unfold performed. rewrite H.
  rewrite skipn_app, skipn_all, Nat.sub_diag. reflexivity.
Qed.

(** C5.  When the form fails validation, [handleSubmit] shows exactly the
    message of the error thrown, performs no navigation and leaves
    [isLoading] false; when the form passes, it navigates to '/dashboard'
    (and leaves [isLoading] false as well). *)
Theorem handleSubmit_spec (snap : PageState) (w : World) :
  (forall e, outcome (validateForm snap) w = JS.Throw e ->
     exists message, e = JS.ErrorObject message /\
     outcome (handleSubmit snap) w = JS.Normal tt /\
     error (ui (exec (handleSubmit snap) w)) = message /\
     performed (handleSubmit snap) w = [JS.PreventDefault] /\
     ~ In (JS.RouterPush "/dashboard") (performed (handleSubmit snap) w) /\
     isLoading (ui (exec (handleSubmit snap) w)) = false) /\
  (outcome (validateForm snap) w = JS.Normal tt ->
     outcome (handleSubmit snap) w = JS.Normal tt /\
     performed (handleSubmit snap) w
       = [JS.PreventDefault; JS.Delay 2000; JS.RouterPush "/dashboard"] /\
     In (JS.RouterPush "/dashboard") (performed (handleSubmit snap) w) /\
     error (ui (exec (handleSubmit snap) w)) = "" /\
     isLoading (ui (exec (handleSubmit snap) w)) = false).
Proof.
  split.
  - intros e He.
    assert (Hmsg : exists message, e = JS.ErrorObject message).
    { unfold outcome in He.
      destruct (validateForm_cases snap)
        as [(_ & E) | [(_ & _ & E) | [(_ & _ & _ & E) |
           [(_ & _ & _ & _ & E) | [(_ & _ & _ & _ & _ & E) |
            (_ & _ & _ & _ & _ & E)]]]]];
        rewrite (E w) in He; simpl in He; try discriminate;
        injection He as <-; now eexists. }
    destruct Hmsg as [message ->]. exists message.
    assert (Hlog : performed (handleSubmit snap) w = [JS.PreventDefault]).
    { apply performed_app. unfold exec.
      now rewrite (handleSubmit_invalid snap w _ He). }
    rewrite Hlog. unfold outcome, exec.
    rewrite (handleSubmit_invalid snap w _ He). simpl.
    repeat split; try reflexivity.
    intros [H | []]. discriminate.
  - intros Hok.
    assert (Hlog : performed (handleSubmit snap) w
                   = [JS.PreventDefault; JS.Delay 2000; JS.RouterPush "/dashboard"]).
    { apply performed_app. unfold exec.
      now rewrite (handleSubmit_valid snap w Hok). }
    rewrite Hlog. unfold outcome, exec.
    rewrite (handleSubmit_valid snap w Hok). simpl.
    repeat split; try reflexivity. auto.
Qed.

Lemma handleSubmit_spec_witness :
  (exists message,
     JS.ErrorObject "Passwords do not match" = JS.ErrorObject message /\
     outcome (handleSubmit (detailsState mismatchedForm)) (detailsWorld mismatchedForm)
       = JS.Normal tt /\
     error (ui (exec (handleSubmit (detailsState mismatchedForm))
                  (detailsWorld mismatchedForm))) = message /\
     performed (handleSubmit (detailsState mismatchedForm))
       (detailsWorld mismatchedForm) = [JS.PreventDefault] /\
     ~ In (JS.RouterPush "/dashboard")
         (performed (handleSubmit (detailsState mismatchedForm))
            (detailsWorld mismatchedForm)) /\
     isLoading (ui (exec (handleSubmit (detailsState mismatchedForm))
                      (detailsWorld mismatchedForm))) = false) /\
  In (JS.RouterPush "/dashboard")
     (performed (handleSubmit (detailsState goodForm)) (detailsWorld goodForm)).
Proof.
  split.
  - apply (proj1 (handleSubmit_spec (detailsState mismatchedForm)
                    (detailsWorld mismatchedForm))).
    reflexivity.
  - apply (proj2 (handleSubmit_spec (detailsState goodForm) (detailsWorld goodForm))).
    reflexivity.
Defined.

(** [handleSubmit] touches [isLoading], [error] and the log only. *)
Lemma handleSubmit_frame (snap : PageState) (w : World) :
  exists err log,
    handleSubmit snap w =
    (JS.Normal tt,
     {| ui := {| step := step (ui w); isLoading := false;
                 showPassword := showPassword (ui w); error := err;
                 selectedRole := selectedRole (ui w);
                 formData := formData (ui w) |};
        effects := log |}).
Proof.
  destruct (outcome (validateForm snap) w) as [[] | e |] eqn:Hout.
  - rewrite (handleSubmit_valid snap w Hout). eauto.
  - rewrite (handleSubmit_invalid snap w e Hout). eauto.
  - exfalso. unfold outcome in Hout.
    destruct (validateForm_cases snap)
      as [(_ & E) | [(_ & _ & E) | [(_ & _ & _ & E) |
         [(_ & _ & _ & _ & E) | [(_ & _ & _ & _ & _ & E) |
          (_ & _ & _ & _ & _ & E)]]]]];
      rewrite (E w) in Hout; discriminate.
Qed.

Lemma dispatch_Submit (w : World) :
  step (ui (dispatch w Submit)) = step (ui w) /\
  selectedRole (ui (dispatch w Submit)) = selectedRole (ui w).
Proof.
  unfold dispatch; simpl.
  destruct (handleSubmit_frame (ui w) w) as (err & log & ->). simpl. auto.
Qed.

Lemma roleTruthy_iff (r : option UserRole) :
  roleTruthy r = true <-> exists x, r = Some x.
Proof.
  destruct r as [[] |]; simpl; split; intros H;
    try reflexivity; try discriminate; try (now eexists).
  destruct H as [x H]. discriminate.
Qed.

(** The step an event leads to, and the role it leaves selected. *)
Lemma dispatch_step (w : World) (ev : Event) :
  step (ui (dispatch w ev)) =
  match ev with
  | Next => if roleTruthy (selectedRole (ui w)) then details else step (ui w)
  | Back => role
  | _ => step (ui w)
  end.
Proof.
  destruct ev; try reflexivity.
  - unfold dispatch; simpl. unfold handleNext.
    now destruct (roleTruthy (selectedRole (ui w))).
  - unfold dispatch; simpl. unfold handleChange, JS.bind; simpl.
    now destruct (JS.truthy (error (ui w))).
  - apply dispatch_Submit.
Qed.

Lemma dispatch_selectedRole (w : World) (ev : Event) :
  selectedRole (ui (dispatch w ev)) =
  match ev with
  | RoleSelect r => Some r
  | _ => selectedRole (ui w)
  end.
Proof.
  destruct ev; try reflexivity.
  - unfold dispatch; simpl. unfold handleNext.
    now destruct (roleTruthy (selectedRole (ui w))).
  - unfold dispatch; simpl. unfold handleChange, JS.bind; simpl.
    now destruct (JS.truthy (error (ui w))).
  - apply dispatch_Submit.
Qed.

(** C6.  [step] is 'role' or 'details'.  The only event that takes the
    page from 'role' to 'details' is [handleNext], and only with a role
    selected (without one it changes nothing, with one it does advance);
    the only event that takes it from 'details' to 'role' is [handleBack],
    which also clears the error. *)
Theorem step_toggle (w : World) (ev : Event) :
  (step (ui w) = role \/ step (ui w) = details) /\
  (step (ui w) = role -> step (ui (dispatch w ev)) = details ->
     ev = Next /\ exists r, selectedRole (ui w) = Some r) /\
  (step (ui w) = details -> step (ui (dispatch w ev)) = role ->
     ev = Back /\ error (ui (dispatch w ev)) = "") /\
  (selectedRole (ui w) = None -> dispatch w Next = w) /\
  (forall r, selectedRole (ui w) = Some r ->
     step (ui (dispatch w Next)) = details) /\
  (step (ui (dispatch w Back)) = role /\ error (ui (dispatch w Back)) = "").
Proof.
  split; [destruct (step (ui w)); auto |].
  split; [| split; [| split; [| split]]].
  - intros Hrole Hdetails. rewrite dispatch_step in Hdetails.
    destruct ev; try congruence.
    destruct (roleTruthy (selectedRole (ui w))) eqn:Hsel; [| congruence].
    split; [reflexivity | now apply roleTruthy_iff].
  - intros Hdetails Hrole. rewrite dispatch_step in Hrole.
    destruct ev; try congruence.
    + destruct (roleTruthy (selectedRole (ui w))); congruence.
    + split; reflexivity.
  - intros Hnone. unfold dispatch; simpl. unfold handleNext.
    rewrite Hnone. reflexivity.
  - intros r Hsome. rewrite dispatch_step, Hsome. now destruct r.
  - split; reflexivity.
Qed.

Lemma step_toggle_witness :
  (Next = Next /\
   exists r, selectedRole (ui (dispatch initialWorld (RoleSelect recruiter))) = Some r) /\
  (Back = Back /\
   error (ui (dispatch (detailsWorld mismatchedForm) Back)) = "").
Proof.
  split.
  - apply (proj1 (proj2 (step_toggle (dispatch initialWorld (RoleSelect recruiter)) Next)));
      reflexivity.
  - apply (proj1 (proj2 (proj2 (step_toggle (detailsWorld mismatchedForm) Back))));
      reflexivity.
Defined.

(** The invariant is kept by every event. *)
Lemma dispatch_roleChosen (w : World) (ev : Event) :
  roleChosen w -> roleChosen (dispatch w ev).
Proof.
  unfold roleChosen. rewrite dispatch_step, dispatch_selectedRole.
  intros Hinv. destruct ev; try assumption.
  - intros _. now eexists.
  - destruct (roleTruthy (selectedRole (ui w))) eqn:Hsel; [| assumption].
    intros _. now apply roleTruthy_iff.
  - discriminate.
Qed.

Lemma run_roleChosen (evs : list Event) (w : World) :
  roleChosen w -> roleChosen (run evs w).
Proof.
  revert w. induction evs as [| ev evs IH]; intros w Hinv; simpl.
  - exact Hinv.
  - apply IH. now apply dispatch_roleChosen.
Qed.

(** C10.  [selectedRole] starts null; an event changes it only by setting
    it to the role given to [handleRoleSelect]; [handleNext] does nothing
    while it is null; [handleBack] leaves it as it is; and so in every
    state the page can reach, [step] = 'details' comes with a selected
    role. *)
Theorem details_has_role :
  selectedRole initialState = None /\
  (forall w ev, selectedRole (ui (dispatch w ev)) <> selectedRole (ui w) ->
     exists r, ev = RoleSelect r /\ selectedRole (ui (dispatch w ev)) = Some r) /\
  (forall w, selectedRole (ui w) = None -> dispatch w Next = w) /\
  (forall w, selectedRole (ui (dispatch w Back)) = selectedRole (ui w)) /\
  (forall w, reachable w -> step (ui w) = details ->
     exists r, selectedRole (ui w) = Some r).
Proof.
  split; [reflexivity |]. split; [| split; [| split]].
  - intros w ev Hchanged. rewrite dispatch_selectedRole in Hchanged.
    destruct ev; try congruence.
    exists r. split; [reflexivity | apply dispatch_selectedRole].
  - intros w Hnone. unfold dispatch; simpl. unfold handleNext.
    rewrite Hnone. reflexivity.
  - intros w. apply dispatch_selectedRole.
  - intros w [evs <-]. apply run_roleChosen.
    unfold roleChosen. discriminate.
Qed.

Lemma details_has_role_witness :
  exists r,
    selectedRole (ui (run [RoleSelect applicant; Next; Back; Next] initialWorld))
    = Some r.
Proof.
  apply (proj2 (proj2 (proj2 (proj2 details_has_role)))).
  - now exists [RoleSelect applicant; Next; Back; Next].
  - reflexivity.
Defined.

End RegisterSpec.

(** ** The dashboard page *)

Module DashboardSpec.
Import Dashboard.

Local Open Scope Q_scope.

Section Doubles.

Variable fl : Q -> Q.

(** Rounding is monotone and leaves doubles alone; 87 and 95 are doubles,
    and doubling a double is exact. *)
Hypothesis fl_monotone : forall x y, x <= y -> fl x <= fl y.
Hypothesis fl_idempotent : forall x, isDouble fl (fl x).
Hypothesis double_87 : isDouble fl 87.
Hypothesis double_95 : isDouble fl 95.
Hypothesis doubling_exact : forall x, isDouble fl x -> isDouble fl (x * 2).

Lemma fl_compat (x y : Q) : x == y -> fl x == fl y.
Proof.
  intros H. apply Qle_antisym; apply fl_monotone; rewrite H; apply Qle_refl.
Qed.

Lemma isDouble_compat (x y : Q) : x == y -> isDouble fl x -> isDouble fl y.
Proof.
  unfold isDouble. intros H Hx. rewrite <- (fl_compat x y H), Hx. exact H.
Qed.

(** The increment of one tick: [Math.random() * 2], a double in [0, 2). *)
Lemma increment_range (r : Q) :
  isRandom fl r -> 0 <= fl (r * 2) /\ fl (r * 2) < 2.
Proof.
  intros [[Hlo Hhi] Hd]. pose proof (doubling_exact r Hd) as He.
  unfold isDouble in He. rewrite He. split; lra.
Qed.

Lemma tick_step (prev : Stats) (r : Q) :
  inRange fl prev -> isRandom fl r ->
  optimizationScore prev <= optimizationScore (tick fl prev r) /\
  optimizationScore (tick fl prev r) <= 95 /\
  inRange fl (tick fl prev r).
Proof.
  intros [[Hlo Hhi] Hd] Hr. unfold inRange, tick. cbn [optimizationScore].
  destruct (increment_range r Hr) as [Hinc _].
  assert (Hsum : optimizationScore prev
                 <= fl (optimizationScore prev + fl (r * 2))).
  { unfold isDouble in Hd. rewrite <- Hd at 1. apply fl_monotone. lra. }
  assert (Hge : optimizationScore prev
                <= Qmin 95 (fl (optimizationScore prev + fl (r * 2)))).
  { apply Q.min_glb; assumption. }
  assert (Hle : Qmin 95 (fl (optimizationScore prev + fl (r * 2))) <= 95).
  { apply Q.le_min_l. }
  repeat split; try assumption.
  - now apply (Qle_trans _ (optimizationScore prev)).
  - destruct (Q.min_spec 95 (fl (optimizationScore prev + fl (r * 2))))
      as [[_ Hmin] | [_ Hmin]].
    + apply (isDouble_compat 95); [now symmetry | exact double_95].
    + apply (isDouble_compat (fl (optimizationScore prev + fl (r * 2))));
        [now symmetry | apply fl_idempotent].
Qed.

Lemma ticks_snoc (draws : list Q) (r : Q) :
  ticks fl (draws ++ [r]) = tick fl (ticks fl draws) r.
Proof. unfold ticks. now rewrite fold_left_app. Qed.

Lemma ticks_inRange (draws : list Q) :
  Forall (isRandom fl) draws -> inRange fl (ticks fl draws).
Proof.
  induction draws as [| r draws IH] using rev_ind; intros Hall.
  - split; [split |]; cbn.
    + apply Qle_refl.
    + unfold Qle; simpl; lia.
    + exact double_87.
  - apply Forall_app in Hall as [Hdraws Hr]. inversion Hr; subst.
    rewrite ticks_snoc. now apply tick_step; [apply IH |].
Qed.

(** C8.  Whatever [Math.random()] returns, after any number of ticks the
    optimization score lies between 87 and 95, and one more tick maps it
    to [min(95, s + d)] for an increment [0 <= d < 2], which is not below
    the score before and not above 95. *)
Theorem optimizationScore_bounded (draws : list Q) (r : Q) :
  Forall (isRandom fl) draws -> isRandom fl r ->
  (87 <= optimizationScore (ticks fl draws) /\
   optimizationScore (ticks fl draws) <= 95) /\
  optimizationScore (ticks fl draws)
    <= optimizationScore (ticks fl (draws ++ [r])) /\
  optimizationScore (ticks fl (draws ++ [r])) <= 95 /\
  (exists d, (0 <= d /\ d < 2) /\
     optimizationScore (ticks fl (draws ++ [r]))
     = Qmin 95 (fl (optimizationScore (ticks fl draws) + d))).
Proof.
  intros Hdraws Hr.
  pose proof (ticks_inRange draws Hdraws) as Hinv.
  destruct (tick_step (ticks fl draws) r Hinv Hr) as (Hmono & Hcap & _).
  rewrite ticks_snoc.
  repeat split; try assumption; try apply Hinv.
  exists (fl (r * 2)). split; [now apply increment_range | reflexivity].
Qed.

End Doubles.

Lemma optimizationScore_bounded_witness :
  (87 <= optimizationScore (ticks (fun x => x) [1 # 2; 3 # 4]) /\
   optimizationScore (ticks (fun x => x) [1 # 2; 3 # 4]) <= 95) /\
  optimizationScore (ticks (fun x => x) [1 # 2; 3 # 4])
    <= optimizationScore (ticks (fun x => x) ([1 # 2; 3 # 4] ++ [1 # 4])).
Proof.
  assert (Hdouble : forall x, isDouble (fun x => x) x) by (intros x; apply Qeq_refl).
  assert (Hdraws : Forall (isRandom (fun x => x)) [1 # 2; 3 # 4]).
  { repeat constructor; simpl; try apply Hdouble; unfold Qle, Qlt; simpl; lia. }
  assert (Hr : isRandom (fun x => x) (1 # 4)).
  { repeat constructor; simpl; try apply Hdouble; unfold Qle, Qlt; simpl; lia. }
  destruct (optimizationScore_bounded (fun x => x)
              (fun x y H => H) (fun x => Hdouble x) (Hdouble 87) (Hdouble 95)
              (fun x _ => Hdouble (x * 2)) [1 # 2; 3 # 4] (1 # 4) Hdraws Hr)
    as (Hrange & Hmono & _).
  split; assumption.
Defined.

End DashboardSpec.

(** ** Row-level security of the profiles table *)

Module SchemaSpec.
Import Schema.

(** The one predicate all three policies use. *)
Lemma owner_predicate (uid : uuid) (row : Profile) :
  holds (Some uid) row (Eq AuthUid UserId) = true <-> user_id row = Some uid.
Proof.
  unfold holds. simpl. destruct (user_id row) as [owner |].
  - destruct (N.eqb_spec uid owner) as [-> | Hne]; split; intros H;
      try reflexivity; try discriminate.
    injection H as ->. contradiction.
  - split; discriminate.
Qed.

Lemma visible_SELECT (uid : uuid) (row : Profile) :
  visible SELECT (Some uid) row = holds (Some uid) row (Eq AuthUid UserId).
Proof. unfold visible. simpl. now rewrite orb_false_r. Qed.

Lemma visible_UPDATE (uid : uuid) (row : Profile) :
  visible UPDATE (Some uid) row = holds (Some uid) row (Eq AuthUid UserId).
Proof. unfold visible. simpl. now rewrite orb_false_r. Qed.

Lemma accepted_UPDATE (uid : uuid) (row : Profile) :
  accepted UPDATE (Some uid) row = holds (Some uid) row (Eq AuthUid UserId).
Proof. unfold accepted. simpl. now rewrite orb_false_r. Qed.

Lemma accepted_INSERT (uid : uuid) (row : Profile) :
  accepted INSERT (Some uid) row = holds (Some uid) row (Eq AuthUid UserId).
Proof. unfold accepted. simpl. now rewrite orb_false_r. Qed.

(** C7.  For an authenticated user, a SELECT of a profiles row, an INSERT
    of one, and an UPDATE of one pass the policies exactly when the user's
    uid is the row's [user_id] (for an UPDATE that rewrites [user_id], of
    the row as it is and as it is written); hence a row owned by someone
    else can be neither read, written nor deleted. *)
Theorem profiles_owner_only (uid : uuid) (row new : Profile) :
  (select_row (Some uid) row = true <-> user_id row = Some uid) /\
  (insert_row (Some uid) row = true <-> user_id row = Some uid) /\
  (user_id new = user_id row ->
     (update_row (Some uid) row new = true <-> user_id row = Some uid)) /\
  (update_row (Some uid) row new = true <->
     user_id row = Some uid /\ user_id new = Some uid) /\
  (forall owner, user_id row = Some owner -> owner <> uid ->
     select_row (Some uid) row = false /\
     insert_row (Some uid) row = false /\
     update_row (Some uid) row new = false /\
     update_row (Some uid) new row = false /\
     delete_row (Some uid) row = false).
Proof.
  unfold select_row, insert_row, update_row, delete_row.
  rewrite !visible_SELECT, !visible_UPDATE, !accepted_UPDATE, !accepted_INSERT.
  rewrite andb_true_iff, !owner_predicate.
  split; [tauto |]. split; [tauto |].
  split; [intros ->; tauto |]. split; [tauto |].
  intros owner Hrow Hother.
  assert (Hforeign : holds (Some uid) row (Eq AuthUid UserId) = false).
  { apply not_true_is_false. rewrite owner_predicate. congruence. }
  rewrite Hforeign, andb_false_r. repeat split; reflexivity.
Qed.

Lemma profiles_owner_only_witness :
  select_row (Some 7%N) aliceProfile = false /\
  insert_row (Some 7%N) aliceProfile = false /\
  update_row (Some 7%N) aliceProfile bobProfile = false /\
  update_row (Some 7%N) bobProfile aliceProfile = false /\
  delete_row (Some 7%N) aliceProfile = false.
Proof.
  apply (proj2 (proj2 (proj2 (proj2
           (profiles_owner_only 7%N aliceProfile bobProfile)))) 3%N).
  - reflexivity.
  - discriminate.
Defined.

End SchemaSpec.

(** ** The résumé upload page: selecting, removing, uploading *)

Module UploadExtra.
Import Upload.

Section WithConfig.

Context {config : UploadConfig} {format : NumberFormat}.

(** What a selection leaves, in full. *)
Lemma handleFileSelect_run (f : File) (w : World) :
  handleFileSelect f w =
  (JS.Normal tt,
   match validateFile f with
   | Some message =>
       {| ui := {| file := file (ui w); uploadState := uploadState (ui w);
                   uploadProgress := uploadProgress (ui w); error := message;
                   processingStatus := processingStatus (ui w) |};
          fileInputRef := fileInputRef w; effects := effects w |}
   | None =>
       {| ui := {| file := Some f; uploadState := idle;
                   uploadProgress := uploadProgress (ui w); error := "";
                   processingStatus := processingStatus (ui w) |};
          fileInputRef := fileInputRef w; effects := effects w |}
   end).
Proof.
  destruct (validateFile f) as [message |] eqn:Hv.
  - rewrite (UploadSpec.handleFileSelect_rejected f message w Hv). reflexivity.
  - rewrite (UploadSpec.handleFileSelect_accepted f w Hv). reflexivity.
Qed.

(** X1.  A drop or a file-input change that carries several files selects
    only the first: the files after it have no influence.  With no file at
    all the state is left alone; a drop still prevents the browser's
    default action, and that is all it adds to a selection. *)
Theorem first_file_only (f : File) (rest : list File) (w : World) :
  handleDrop (f :: rest) w = handleDrop [f] w /\
  handleFileInput (Some (f :: rest)) w = handleFileInput (Some [f]) w /\
  ui (exec (handleDrop (f :: rest)) w) = ui (exec (handleFileSelect f) w) /\
  effects (exec (handleDrop (f :: rest)) w)
    = (effects w ++ [JS.PreventDefault])%list /\
  exec (handleFileInput (Some (f :: rest))) w = exec (handleFileSelect f) w /\
  ui (exec (handleDrop []) w) = ui w /\
  exec (handleFileInput (Some [])) w = w /\
  exec (handleFileInput None) w = w.
Proof.
  unfold exec, handleDrop, handleFileInput, JS.bind, perform, JS.modify; simpl.
  rewrite !handleFileSelect_run. simpl.
  repeat split; destruct (validateFile f); reflexivity.
Qed.

(** X2.  [removeFile] cancels whatever selection came before it, accepted
    or rejected, and doing it twice is doing it once. *)
Theorem removeFile_absorbs (f : File) (w : World) :
  exec removeFile (exec (handleFileSelect f) w) = exec removeFile w /\
  exec removeFile (exec removeFile w) = exec removeFile w.
Proof.
  unfold exec. rewrite handleFileSelect_run. simpl.
  destruct w as [s [input |] log]; destruct (validateFile f); split; reflexivity.
Qed.

(** X3.  An accepted file replaces whatever was selected or shown before:
    selecting [g] after any other selection leaves the page exactly as
    selecting [g] alone does. *)
Theorem accepted_selection_overrides (f g : File) (w : World) :
  validateFile g = None ->
  exec (handleFileSelect g) (exec (handleFileSelect f) w)
  = exec (handleFileSelect g) w.
Proof.
  intros Hg. unfold exec. rewrite !handleFileSelect_run, Hg. simpl.
  destruct (validateFile f); reflexivity.
Qed.

(** X4.  Selecting and removing return normally, never touch the upload
    progress or the processing status, and perform no effect: the log is
    as it was after either.  A selection leaves the file input alone as
    well.  What a finished upload wrote to progress and status stays until
    the next upload overwrites it. *)
Theorem selection_frame (f : File) (w : World) :
  (outcome (handleFileSelect f) w = JS.Normal tt /\
   uploadProgress (ui (exec (handleFileSelect f) w)) = uploadProgress (ui w) /\
   processingStatus (ui (exec (handleFileSelect f) w)) = processingStatus (ui w) /\
   fileInputRef (exec (handleFileSelect f) w) = fileInputRef w /\
   effects (exec (handleFileSelect f) w) = effects w) /\
  (outcome removeFile w = JS.Normal tt /\
   uploadProgress (ui (exec removeFile w)) = uploadProgress (ui w) /\
   processingStatus (ui (exec removeFile w)) = processingStatus (ui w) /\
   effects (exec removeFile w) = effects w).
Proof.
  unfold exec, outcome. rewrite handleFileSelect_run. simpl. split.
  - destruct (validateFile f); repeat split; reflexivity.
  - destruct w as [s [input |] log]; repeat split; reflexivity.
Qed.

(** X5.  What the card shows after a selection.  An accepted file gives
    the preview of that file, the Analyze button and an enabled Remove
    button, with no error and no progress panel.  A rejected file changes
    the error alert only, which shows the validation message. *)
Theorem selection_view (f : File) (w : World) :
  (validateFile f = None ->
     render (ui (exec (handleFileSelect f) w)) =
     {| dropZone := false; filePreview := Some f; errorAlert := None;
        progressPanel := None; analyzeButton := true;
        removeButton := Some false |}) /\
  (forall message, validateFile f = Some message ->
     render (ui (exec (handleFileSelect f) w)) =
     {| dropZone := dropZone (render (ui w));
        filePreview := filePreview (render (ui w));
        errorAlert := Some message;
        progressPanel := progressPanel (render (ui w));
        analyzeButton := analyzeButton (render (ui w));
        removeButton := removeButton (render (ui w)) |}).
Proof.
  unfold exec. rewrite handleFileSelect_run. split.
  - intros ->. reflexivity.
  - intros message Hv. rewrite Hv. unfold render; simpl.
    now rewrite (UploadSpec.validateFile_truthy f message Hv).
Qed.

End WithConfig.

Lemma accepted_selection_overrides_witness :
  exec (@handleFileSelect sampleConfig sampleFormat resumePdf)
    (exec (@handleFileSelect sampleConfig sampleFormat photoPng) emptyWorld)
  = exec (@handleFileSelect sampleConfig sampleFormat resumePdf) emptyWorld.
Proof.
  apply (@accepted_selection_overrides sampleConfig sampleFormat photoPng resumePdf).
  reflexivity.
Defined.

Lemma selection_view_witness :
  render (ui (exec (@handleFileSelect sampleConfig sampleFormat resumePdf) emptyWorld)) =
  {| dropZone := false; filePreview := Some resumePdf; errorAlert := None;
     progressPanel := None; analyzeButton := true; removeButton := Some false |} /\
  errorAlert
    (render (ui (exec (@handleFileSelect sampleConfig sampleFormat photoPng) selectedWorld)))
  = Some "Please upload a valid file type: .pdf, .docx".
Proof.
  split.
  - apply (proj1 (@selection_view sampleConfig sampleFormat resumePdf emptyWorld)).
    reflexivity.
  - rewrite (proj2 (@selection_view sampleConfig sampleFormat photoPng selectedWorld)
               "Please upload a valid file type: .pdf, .docx" eq_refl).
    reflexivity.
Defined.

(** X6.  [uploadFile] cannot fail.  Given the iterations its loop needs it
    returns normally, and it ends in the 'error' state or with the
    'Upload failed' message only if no file was selected and the page was
    already so: the catch block is never entered. *)
Theorem uploadFile_never_fails (fuel : nat) (snap : PageState) (w : World) :
  (11 <= fuel)%nat ->
  outcome (uploadFile fuel snap) w = JS.Normal tt /\
  (uploadState (ui (exec (uploadFile fuel snap) w)) = failed ->
     file snap = None /\ uploadState (ui w) = failed) /\
  (error (ui (exec (uploadFile fuel snap) w)) = "Upload failed. Please try again." ->
     file snap = None /\ error (ui w) = "Upload failed. Please try again.").
Proof.
  intros Hfuel. unfold outcome, exec.
  destruct (file snap) as [f |] eqn:Hfile.
  - rewrite (UploadSpec.uploadFile_run fuel snap w f Hfuel Hfile). simpl.
    repeat split; discriminate.
  - rewrite (UploadSpec.uploadFile_no_file fuel snap w Hfile). simpl.
    repeat split; assumption.
Qed.

Lemma uploadFile_never_fails_witness :
  outcome (uploadFile 11 (ui selectedWorld)) selectedWorld = JS.Normal tt.
Proof.
  apply (uploadFile_never_fails 11 (ui selectedWorld) selectedWorld). lia.
Defined.

(** X7.  What the card shows once an upload has run: the progress panel
    with 'completed', 100 and the success status; the preview of the file;
    no error; no Analyze button, and Remove disabled. *)
Theorem completed_upload_view (fuel : nat) (w : World) (f : File) :
  (11 <= fuel)%nat -> file (ui w) = Some f ->
  render (ui (exec (uploadFile fuel (ui w)) w)) =
  {| dropZone := false; filePreview := Some f; errorAlert := None;
     progressPanel :=
       Some (completed, 100, Some "Resume processed successfully!");
     analyzeButton := false; removeButton := Some true |}.
Proof.
  intros Hfuel Hfile. unfold exec.
  rewrite (UploadSpec.uploadFile_run fuel (ui w) w f Hfuel Hfile).
  unfold render; simpl. rewrite Hfile. reflexivity.
Qed.

Lemma completed_upload_view_witness :
  render (ui (exec (uploadFile 11 (ui selectedWorld)) selectedWorld)) =
  {| dropZone := false; filePreview := Some resumePdf; errorAlert := None;
     progressPanel :=
       Some (completed, 100, Some "Resume processed successfully!");
     analyzeButton := false; removeButton := Some true |}.
Proof.
  apply (completed_upload_view 11 selectedWorld resumePdf); [lia | reflexivity].
Defined.

End UploadExtra.

(** ** The registration page: typing, submitting, going back *)

Module RegisterExtra.
Import Register RegisterView.

(** What a change event leaves, in full. *)
Lemma dispatch_Change (w : World) (name : FieldName) (value : JS.jsstring) :
  dispatch w (Change name value) =
  {| ui := {| step := step (ui w); isLoading := isLoading (ui w);
              showPassword := showPassword (ui w); error := "";
              selectedRole := selectedRole (ui w);
              formData := setField (formData (ui w)) name value |};
     effects := effects w |}.
Proof.
  unfold dispatch, handler, handleChange, JS.bind; simpl.
  destruct (JS.truthy (error (ui w))) eqn:Herr; simpl; [reflexivity |].
  apply JSFacts.truthy_false_iff in Herr. now rewrite Herr.
Qed.

Lemma getField_setField (fd : FormData) (name other : FieldName)
  (value : JS.jsstring) :
  getField (setField fd name value) other =
  if fieldName_eqb other name then value else getField fd other.
Proof. destruct name, other; reflexivity. Qed.

Lemma fieldName_eqb_eq (a b : FieldName) : fieldName_eqb a b = true <-> a = b.
Proof. destruct a, b; simpl; split; intros H; congruence. Qed.

(** X8.  Typing into an input writes the field of that name and no other,
    clears the error whatever it was, and changes nothing else on the
    page. *)
Theorem handleChange_writes_field (w : World) (name : FieldName)
  (value : JS.jsstring) :
  getField (formData (ui (dispatch w (Change name value)))) name = value /\
  (forall other, other <> name ->
     getField (formData (ui (dispatch w (Change name value)))) other
     = getField (formData (ui w)) other) /\
  error (ui (dispatch w (Change name value))) = "" /\
  step (ui (dispatch w (Change name value))) = step (ui w) /\
  isLoading (ui (dispatch w (Change name value))) = isLoading (ui w) /\
  showPassword (ui (dispatch w (Change name value))) = showPassword (ui w) /\
  selectedRole (ui (dispatch w (Change name value))) = selectedRole (ui w) /\
  effects (dispatch w (Change name value)) = effects w.
Proof.
  rewrite dispatch_Change. simpl. repeat split.
  - rewrite getField_setField.
    now rewrite (proj2 (fieldName_eqb_eq name name) eq_refl).
  - intros other Hother. rewrite getField_setField.
    destruct (fieldName_eqb other name) eqn:Heq; [| reflexivity].
    apply fieldName_eqb_eq in Heq. contradiction.
Qed.

Lemma handleChange_writes_field_witness :
  getField (formData (ui (dispatch (detailsWorld goodForm)
                            (Change email_ (JS.ofAscii "a@b.c")))))
    password_
  = JS.ofAscii "engine1843".
Proof.
  rewrite (proj1 (proj2 (handleChange_writes_field (detailsWorld goodForm)
                           email_ (JS.ofAscii "a@b.c"))) password_).
  - reflexivity.
  - discriminate.
Defined.

(** X9.  Changes compose as writes do: of two changes to one field the
    later stands, and changes to different fields can be made in either
    order. *)
Theorem changes_compose (w : World) (n m : FieldName) (a b : JS.jsstring) :
  run [Change n a; Change n b] w = run [Change n b] w /\
  (n <> m -> run [Change n a; Change m b] w = run [Change m b; Change n a] w).
Proof.
  unfold run; simpl. rewrite !dispatch_Change. simpl. split.
  - destruct n; reflexivity.
  - intros Hnm. destruct n, m; try contradiction; reflexivity.
Qed.

Lemma changes_compose_witness :
  run [Change email_ (JS.ofAscii "a@b.c"); Change password_ (JS.ofAscii "12345678")]
    initialWorld
  = run [Change password_ (JS.ofAscii "12345678"); Change email_ (JS.ofAscii "a@b.c")]
      initialWorld.
Proof.
  apply (proj2 (changes_compose initialWorld email_ password_
                  (JS.ofAscii "a@b.c") (JS.ofAscii "12345678"))).
  discriminate.
Defined.

(** Every exception of [validateForm] is an [Error] with one of the five
    messages. *)
Lemma validateForm_throws_message (snap : PageState) (w : World) (e : JS.thrown) :
  outcome (validateForm snap) w = JS.Throw e ->
  exists message, e = JS.ErrorObject message /\ In message validationMessages.
Proof.
  unfold outcome. intros He.
  destruct (RegisterSpec.validateForm_cases snap)
    as [(_ & E) | [(_ & _ & E) | [(_ & _ & _ & E) |
       [(_ & _ & _ & _ & E) | [(_ & _ & _ & _ & _ & E) |
        (_ & _ & _ & _ & _ & E)]]]]];
    rewrite (E w) in He; simpl in He; try discriminate;
    injection He as <-; eexists; (split; [reflexivity |]);
    unfold validationMessages; simpl; auto 6.
Qed.

Lemma validateForm_total (snap : PageState) (w : World) :
  outcome (validateForm snap) w <> JS.OutOfFuel.
Proof.
  unfold outcome.
  destruct (RegisterSpec.validateForm_cases snap)
    as [(_ & E) | [(_ & _ & E) | [(_ & _ & _ & E) |
       [(_ & _ & _ & _ & E) | [(_ & _ & _ & _ & _ & E) |
        (_ & _ & _ & _ & _ & E)]]]]];
    rewrite (E w); discriminate.
Qed.

Lemma dispatch_knownError (w : World) (ev : Event) :
  knownError w -> knownError (dispatch w ev).
Proof.
  unfold knownError. intros Hinv. destruct ev.
  - exact Hinv.
  - unfold dispatch; simpl. unfold handleNext.
    now destruct (roleTruthy (selectedRole (ui w))).
  - left. reflexivity.
  - rewrite dispatch_Change. left. reflexivity.
  - unfold dispatch; simpl.
    destruct (outcome (validateForm (ui w)) w) as [[] | e |] eqn:Hout.
    + rewrite (RegisterSpec.handleSubmit_valid (ui w) w Hout). now left.
    + rewrite (RegisterSpec.handleSubmit_invalid (ui w) w e Hout). simpl.
      destruct (validateForm_throws_message (ui w) w e Hout) as (message & -> & Hin).
      now right.
    + now destruct (validateForm_total (ui w) w).
  - exact Hinv.
Qed.

Lemma run_knownError (evs : list Event) (w : World) :
  knownError w -> knownError (run evs w).
Proof.
  revert w. induction evs as [| ev evs IH]; intros w Hinv; simpl.
  - exact Hinv.
  - apply IH. now apply dispatch_knownError.
Qed.

(** X10.  In every state the page can reach, the error shown is empty or
    one of the five validation messages: the fallback text of the catch
    block, 'Registration failed. Please try again.', is never shown. *)
Theorem error_is_validation_message (w : World) :
  reachable w ->
  (error (ui w) = "" \/ In (error (ui w)) validationMessages) /\
  error (ui w) <> "Registration failed. Please try again.".
Proof.
  intros [evs <-].
  assert (Hknown : knownError (run evs initialWorld)).
  { apply run_knownError. now left. }
  split; [exact Hknown |].
  destruct Hknown as [Hempty | Hin].
  - rewrite Hempty. discriminate.
  - intros Hfallback. rewrite Hfallback in Hin. simpl in Hin.
    repeat (destruct Hin as [Hin | Hin]; [discriminate |]). exact Hin.
Qed.

Lemma error_is_validation_message_witness :
  error (ui (run [RoleSelect applicant; Next; Submit] initialWorld))
  <> "Registration failed. Please try again.".
Proof.
  refine (proj2 (error_is_validation_message
                   (run [RoleSelect applicant; Next; Submit] initialWorld) _)).
  now exists [RoleSelect applicant; Next; Submit].
Defined.

(** The form after the five inputs were filled, on the details step and
    not loading. *)
Lemma fill_run (w : World) (first last mail pass confirm : JS.jsstring) :
  step (ui w) = details -> isLoading (ui w) = false ->
  fold_left attempt
    [ Change firstName_ first; Change lastName_ last; Change email_ mail;
      Change password_ pass; Change confirmPassword_ confirm ] w =
  {| ui := {| step := details; isLoading := false;
              showPassword := showPassword (ui w); error := "";
              selectedRole := selectedRole (ui w);
              formData := {| firstName := first; lastName := last;
                             email := mail; password := pass;
                             confirmPassword := confirm |} |};
     effects := effects w |}.
Proof.
  intros Hstep Hload. simpl.
  unfold attempt at 5. unfold offered. rewrite Hstep, Hload. simpl.
  rewrite dispatch_Change, Hstep, Hload.
  unfold attempt. unfold offered. simpl.
  rewrite !dispatch_Change. reflexivity.
Qed.

Lemma performedSince_app (w later : World) (l : list JS.effect) :
  effects later = (effects w ++ l)%list -> performedSince w later = l.
Proof.
  intros H. unfold performedSince. rewrite H.
  rewrite skipn_app, skipn_all, Nat.sub_diag. reflexivity.
Qed.

(** X11.  With the details form shown and not loading, entering a value
    into each of the five inputs and pressing Create Account navigates to
    the dashboard exactly when both names are non-empty, the email is
    non-empty and a valid address to the browser, the password has at
    least 8 code units and the confirmation repeats it; what the fields
    held or the error showed before does not matter, and the form keeps
    what was entered either way. *)
Theorem fillAndSubmit_navigates (validEmailAddress : JS.jsstring -> bool)
  (w : World) (first last mail pass confirm : JS.jsstring) :
  step (ui w) = details -> isLoading (ui w) = false ->
  (In (JS.RouterPush "/dashboard")
      (performedSince w
         (fillAndSubmit validEmailAddress first last mail pass confirm w)) <->
   first <> [] /\ last <> [] /\ mail <> [] /\ validEmailAddress mail = true /\
   (8 <= List.length pass)%nat /\ pass = confirm) /\
  formData (ui (fillAndSubmit validEmailAddress first last mail pass confirm w)) =
  {| firstName := first; lastName := last; email := mail;
     password := pass; confirmPassword := confirm |}.
Proof.
  intros Hstep Hload. unfold fillAndSubmit.
  rewrite (fill_run w first last mail pass confirm Hstep Hload).
  set (filled :=
         {| ui := {| step := details; isLoading := false;
                     showPassword := showPassword (ui w); error := "";
                     selectedRole := selectedRole (ui w);
                     formData := {| firstName := first; lastName := last;
                                    email := mail; password := pass;
                                    confirmPassword := confirm |} |};
            effects := effects w |}).
  unfold pressSubmit.
  destruct (satisfiesConstraints validEmailAddress (formData (ui filled)))
    eqn:Hvalid.
  - (* the submit event fires *)
    unfold satisfiesConstraints in Hvalid. simpl in Hvalid.
    rewrite !andb_true_iff in Hvalid.
    destruct Hvalid as [[[[Hfirst Hlast] [Hmail Haddr]] Hpass] Hconfirm].
    apply JSFacts.str_truthy_true_iff in Hfirst, Hlast, Hmail.
    assert (Hattempt : attempt filled Submit
                       = snd (handleSubmit (ui filled) filled)) by reflexivity.
    rewrite Hattempt. clear Hattempt.
    destruct (outcome (validateForm (ui filled)) filled) as [[] | e |] eqn:Hout.
    + rewrite (RegisterSpec.handleSubmit_valid (ui filled) filled Hout).
      cbn [snd].
      rewrite (performedSince_app w _
                 [JS.PreventDefault; JS.Delay 2000; JS.RouterPush "/dashboard"])
        by reflexivity.
      split; [| reflexivity].
      split; [intros _ | simpl; auto].
      unfold outcome in Hout.
      destruct (RegisterSpec.validateForm_cases (ui filled))
        as [(_ & E) | [(_ & _ & E) | [(_ & _ & _ & E) |
           [(_ & _ & _ & _ & E) | [(_ & _ & _ & _ & _ & E) |
            (N1 & N2 & N3 & N4 & N5 & E)]]]]];
        rewrite (E filled) in Hout; try discriminate.
      unfold passwordShort, passwordMismatch in *. simpl in *.
      repeat split; try assumption; try lia.
      destruct (list_eq_dec N.eq_dec pass confirm); [assumption | contradiction].
    + rewrite (RegisterSpec.handleSubmit_invalid (ui filled) filled e Hout).
      cbn [snd].
      rewrite (performedSince_app w _ [JS.PreventDefault]) by reflexivity.
      split; [| reflexivity].
      split; [intros [H | []]; discriminate |].
      intros (H1 & H2 & H3 & _ & H4 & H5). exfalso.
      unfold outcome in Hout.
      destruct (RegisterSpec.validateForm_cases (ui filled))
        as [(C & E) | [(_ & C & E) | [(_ & _ & C & E) |
           [(_ & _ & _ & C & E) | [(_ & _ & _ & _ & C & E) |
            (_ & _ & _ & _ & _ & E)]]]]];
        rewrite (E filled) in Hout; try discriminate;
        unfold nameMissing, emailMissing, passwordMissing, passwordShort,
          passwordMismatch in C; simpl in C.
      * tauto.
      * contradiction.
      * rewrite C in H4. simpl in H4. lia.
      * lia.
      * contradiction.
    + now destruct (validateForm_total (ui filled) filled).
  - (* the browser holds the submit event back *)
    rewrite (performedSince_app w filled []) by (simpl; now rewrite app_nil_r).
    split; [| reflexivity].
    split; [intros [] |].
    intros (H1 & H2 & H3 & Haddr & H4 & H5). exfalso.
    unfold satisfiesConstraints in Hvalid. simpl in Hvalid.
    apply JSFacts.str_truthy_true_iff in H1, H2, H3.
    rewrite H1, H2, H3, Haddr in Hvalid. simpl in Hvalid.
    subst confirm.
    destruct pass as [| c pass]; [simpl in H4; lia | discriminate].
Qed.

Lemma fillAndSubmit_navigates_witness :
  In (JS.RouterPush "/dashboard")
     (performedSince (detailsWorld mismatchedForm)
        (fillAndSubmit hasAtSign (JS.ofAscii "Ada") (JS.ofAscii "Lovelace")
           (JS.ofAscii "ada@example.com") (JS.ofAscii "engine1843")
           (JS.ofAscii "engine1843") (detailsWorld mismatchedForm))).
Proof.
  apply (proj1 (fillAndSubmit_navigates hasAtSign (detailsWorld mismatchedForm)
                  (JS.ofAscii "Ada") (JS.ofAscii "Lovelace")
                  (JS.ofAscii "ada@example.com") (JS.ofAscii "engine1843")
                  (JS.ofAscii "engine1843") eq_refl eq_refl)).
  repeat split; try discriminate. simpl. lia.
Defined.

(** X12.  A submission never loses what the user typed or chose: the form
    data, the step, the selected role and the password visibility are as
    before it, whether validation passed or not, and [isLoading] is false
    again. *)
Theorem submit_keeps_form (w : World) :
  formData (ui (dispatch w Submit)) = formData (ui w) /\
  step (ui (dispatch w Submit)) = step (ui w) /\
  selectedRole (ui (dispatch w Submit)) = selectedRole (ui w) /\
  showPassword (ui (dispatch w Submit)) = showPassword (ui w) /\
  isLoading (ui (dispatch w Submit)) = false.
Proof.
  unfold dispatch; simpl.
  destruct (RegisterSpec.handleSubmit_frame (ui w) w) as (err & log & ->).
  simpl. repeat split; reflexivity.
Qed.

(** X13.  Going back to the role step and on again loses nothing but the
    error: with a role selected, Back then Continue leaves the page on the
    details step with the same form data, role and flags, and an empty
    error. *)
Theorem back_next_round_trip (w : World) (r : UserRole) :
  selectedRole (ui w) = Some r ->
  run [Back; Next] w =
  {| ui := {| step := details; isLoading := isLoading (ui w);
              showPassword := showPassword (ui w); error := "";
              selectedRole := selectedRole (ui w);
              formData := formData (ui w) |};
     effects := effects w |}.
Proof.
  intros Hrole. unfold run, dispatch; simpl. unfold handleNext; simpl.
  rewrite Hrole. destruct r; reflexivity.
Qed.

Lemma back_next_round_trip_witness :
  run [Back; Next] (detailsWorld goodForm) = detailsWorld goodForm.
Proof.
  rewrite (back_next_round_trip (detailsWorld goodForm) applicant eq_refl).
  reflexivity.
Defined.

(** X14.  Under the events the rendered page offers, the role step never
    carries an error: an error can only be set by a submission, which
    needs the details step, and leaving that step clears it. *)
Theorem role_step_has_no_error (w : World) :
  reachableByUser w -> step (ui w) = role -> error (ui w) = "".
Proof.
  induction 1 as [| w ev Hreach IH Hoffered]; [reflexivity |].
  rewrite RegisterSpec.dispatch_step.
  unfold offered in Hoffered.
  destruct (step (ui w)) eqn:Hstep.
  - destruct ev; try discriminate.
    + intros _. now apply IH.
    + rewrite Hoffered. discriminate.
  - destruct ev; try discriminate; try (intros; discriminate).
    reflexivity.
Qed.

Lemma role_step_has_no_error_witness :
  error (ui (dispatch (dispatch (dispatch (dispatch initialWorld
           (RoleSelect applicant)) Next) Submit) Back)) = "".
Proof.
  apply role_step_has_no_error.
  - repeat (apply reach_event; [| reflexivity]). apply reach_initial.
  - reflexivity.
Defined.

End RegisterExtra.

(** ** The dashboard page: the score as shown, and the other statistics *)

Module DashboardExtra.
Import Dashboard DashboardView.

Local Open Scope Q_scope.

Lemma Math_round_monotone (x y : Q) :
  x <= y -> (Math_round x <= Math_round y)%Z.
Proof. intros H. unfold Math_round. apply Qfloor_resp_le. lra. Qed.

Lemma ticks_app (fl : Q -> Q) (draws more : list Q) :
  ticks fl (draws ++ more) = fold_left (tick fl) more (ticks fl draws).
Proof. unfold ticks. apply fold_left_app. Qed.

(** X15.  The interval callback changes the optimization score only: the
    other statistics keep their initial values through any number of
    ticks, whatever [Math.random()] returns. *)
Theorem ticks_keep_other_stats (fl : Q -> Q) (draws : list Q) :
  resumesAnalyzed (ticks fl draws) = resumesAnalyzed mockUserStats /\
  matchesGenerated (ticks fl draws) = matchesGenerated mockUserStats /\
  lastActivity (ticks fl draws) = lastActivity mockUserStats.
Proof.
  induction draws as [| r draws IH] using rev_ind.
  - repeat split.
  - rewrite DashboardSpec.ticks_snoc. simpl. exact IH.
Qed.

Section Doubles.

Variable fl : Q -> Q.

Hypothesis fl_monotone : forall x y, x <= y -> fl x <= fl y.
Hypothesis fl_idempotent : forall x, isDouble fl (fl x).
Hypothesis double_87 : isDouble fl 87.
Hypothesis double_95 : isDouble fl 95.
Hypothesis doubling_exact : forall x, isDouble fl x -> isDouble fl (x * 2).

Lemma reached_inRange (draws : list Q) :
  Forall (isRandom fl) draws -> inRange fl (ticks fl draws).
Proof.
  apply DashboardSpec.ticks_inRange; assumption.
Qed.

Lemma next_inRange (prev : Stats) (r : Q) :
  inRange fl prev -> isRandom fl r ->
  optimizationScore prev <= optimizationScore (tick fl prev r) /\
  optimizationScore (tick fl prev r) <= 95 /\
  inRange fl (tick fl prev r).
Proof.
  apply DashboardSpec.tick_step; assumption.
Qed.

(** X16.  The number the card displays, [Math.round] of the score, is an
    integer from 87 to 95 and never goes down from one tick to the
    next. *)
Theorem displayedScore_bounded (draws : list Q) (r : Q) :
  Forall (isRandom fl) draws -> isRandom fl r ->
  (87 <= displayedScore (ticks fl draws) <= 95)%Z /\
  (displayedScore (ticks fl draws)
   <= displayedScore (ticks fl (draws ++ [r])))%Z.
Proof.
  intros Hdraws Hr.
  pose proof (reached_inRange draws Hdraws) as Hinv.
  destruct (next_inRange (ticks fl draws) r Hinv Hr) as (Hmono & _ & _).
  destruct Hinv as [[Hlo Hhi] _].
  unfold displayedScore. rewrite DashboardSpec.ticks_snoc.
  repeat split.
  - change 87%Z with (Math_round 87). now apply Math_round_monotone.
  - change 95%Z with (Math_round 95). now apply Math_round_monotone.
  - now apply Math_round_monotone.
Qed.

(** X17.  95 is where the score stops: once it is 95 it is 95 after every
    further tick. *)
Theorem score_saturates (draws more : list Q) :
  Forall (isRandom fl) draws -> Forall (isRandom fl) more ->
  optimizationScore (ticks fl draws) == 95 ->
  optimizationScore (ticks fl (draws ++ more)) == 95.
Proof.
  intros Hdraws Hmore Htop.
  induction more as [| r more IH] using rev_ind.
  - now rewrite app_nil_r.
  - apply Forall_app in Hmore as [Hmore Hr]. inversion Hr; subst.
    specialize (IH Hmore).
    assert (Hall : Forall (isRandom fl) (draws ++ more))
      by (apply Forall_app; now split).
    pose proof (reached_inRange (draws ++ more) Hall) as Hinv.
    destruct (next_inRange (ticks fl (draws ++ more)) r Hinv) as (Hmono & Hcap & _);
      [assumption |].
    rewrite app_assoc, DashboardSpec.ticks_snoc.
    apply Qle_antisym; [exact Hcap |].
    rewrite <- IH. exact Hmono.
Qed.

End Doubles.

Lemma displayedScore_bounded_witness :
  (87 <= displayedScore (ticks (fun x => x) [1 # 2; 3 # 4]) <= 95)%Z.
Proof.
  assert (Hdouble : forall x, isDouble (fun x => x) x) by (intros x; apply Qeq_refl).
  assert (Hdraws : Forall (isRandom (fun x => x)) [1 # 2; 3 # 4]).
  { repeat constructor; simpl; try apply Hdouble; unfold Qle, Qlt; simpl; lia. }
  assert (Hr : isRandom (fun x => x) (1 # 4)).
  { repeat constructor; simpl; try apply Hdouble; unfold Qle, Qlt; simpl; lia. }
  exact (proj1 (displayedScore_bounded (fun x => x)
                  (fun x y H => H) (fun x => Hdouble x) (Hdouble 87) (Hdouble 95)
                  (fun x _ => Hdouble (x * 2)) [1 # 2; 3 # 4] (1 # 4) Hdraws Hr)).
Defined.

Lemma score_saturates_witness :
  optimizationScore
    (ticks (fun x => x)
       ([9 # 10; 9 # 10; 9 # 10; 9 # 10; 9 # 10] ++ [1 # 4; 1 # 2])) == 95.
Proof.
  assert (Hdouble : forall x, isDouble (fun x => x) x) by (intros x; apply Qeq_refl).
  assert (Hdraws : Forall (isRandom (fun x => x))
                     [9 # 10; 9 # 10; 9 # 10; 9 # 10; 9 # 10]).
  { repeat constructor; simpl; try apply Hdouble; unfold Qle, Qlt; simpl; lia. }
  assert (Hmore : Forall (isRandom (fun x => x)) [1 # 4; 1 # 2]).
  { repeat constructor; simpl; try apply Hdouble; unfold Qle, Qlt; simpl; lia. }
  apply (score_saturates (fun x => x)
           (fun x y H => H) (fun x => Hdouble x) (Hdouble 87) (Hdouble 95)
           (fun x _ => Hdouble (x * 2)) _ _ Hdraws Hmore).
  vm_compute. reflexivity.
Defined.

End DashboardExtra.

(** ** Row-level security: the other tables, and what NULL does *)

Module RlsSpec.
Import Schema Rls.

Lemma eq_uuid_true (a b : uuid) : is_true (sql_eq N.eqb (Some a) (Some b)) = true <-> a = b.
Proof.
  simpl. destruct (N.eqb_spec a b); split; intros H; congruence.
Qed.

Lemma eq_uuid_opt_true (a : uuid) (b : option uuid) :
  is_true (sql_eq N.eqb (Some a) b) = true <-> b = Some a.
Proof.
  destruct b as [b |]; simpl.
  - destruct (N.eqb_spec a b); split; intros H; congruence.
  - split; discriminate.
Qed.

Lemma eq_opt_uuid_true (a : option uuid) (b : uuid) :
  is_true (sql_eq N.eqb a (Some b)) = true <-> a = Some b.
Proof.
  destruct a as [a |]; simpl.
  - destruct (N.eqb_spec a b); split; intros H; congruence.
  - split; discriminate.
Qed.

Lemma is_true_exists {A} (rows : list A) (cond : A -> tv) :
  is_true (sql_exists rows cond) = existsb (fun r => is_true (cond r)) rows.
Proof. unfold sql_exists; simpl. now destruct (existsb _ rows). Qed.

Lemma is_true_and (x y : tv) :
  is_true (sql_and x y) = is_true x && is_true y.
Proof. destruct x as [[] |], y as [[] |]; reflexivity. Qed.

Lemma is_true_or (x y : tv) :
  is_true (sql_or x y) = is_true x || is_true y.
Proof. destruct x as [[] |], y as [[] |]; reflexivity. Qed.

Lemma users_selects (uid : uuid) (u : Users.row) :
  selects (Users.policies (Some uid)) u = true <-> Users.id u = uid.
Proof.
  change (selects (Users.policies (Some uid)) u)
    with (is_true (sql_eq N.eqb (Some uid) (Some (Users.id u))) || false).
  rewrite orb_false_r, eq_uuid_true. split; congruence.
Qed.

Lemma users_updates (uid : uuid) (u u' : Users.row) :
  updates (Users.policies (Some uid)) u u' = true <->
  Users.id u = uid /\ Users.id u' = uid.
Proof.
  change (updates (Users.policies (Some uid)) u u')
    with ((is_true (sql_eq N.eqb (Some uid) (Some (Users.id u))) || false)
          && (is_true (sql_eq N.eqb (Some uid) (Some (Users.id u'))) || false)).
  rewrite !orb_false_r, andb_true_iff, !eq_uuid_true.
  split; intros [H1 H2]; split; congruence.
Qed.

(** X18.  On [users] a user reads and updates the one row whose [id] is
    their uid, an update may not move the row to another [id], and nobody
    can insert a row. *)
Theorem users_own_row_only (uid : uuid) (u u' : Users.row) :
  (selects (Users.policies (Some uid)) u = true <-> Users.id u = uid) /\
  (updates (Users.policies (Some uid)) u u' = true <->
     Users.id u = uid /\ Users.id u' = uid) /\
  inserts (Users.policies (Some uid)) u = false.
Proof.
  split; [apply users_selects |]. split; [apply users_updates | reflexivity].
Qed.

Lemma from_users_recruiter (uid : uuid) (users : list Users.row) :
  is_true
    (sql_exists (Jobs.from_users (Some uid) users) (fun u =>
       sql_and (sql_eq N.eqb (Some (Users.id u)) (Some uid))
               (sql_eq String.eqb (Some (Users.role u)) (Some "recruiter"))))
  = true <-> isRecruiter uid users.
Proof.
  rewrite is_true_exists. unfold Jobs.from_users, isRecruiter.
  rewrite existsb_exists. split.
  - intros (u & Hin & Hcond). apply filter_In in Hin as [Hin Hsel].
    apply users_selects in Hsel. exists u. split; [assumption |].
    split; [assumption |].
    simpl in Hcond. rewrite Hsel, N.eqb_refl in Hcond.
    destruct (String.eqb_spec (Users.role u) "recruiter"); [assumption | discriminate].
  - intros (u & Hin & Hid & Hrole). exists u. split.
    + apply filter_In. split; [assumption | now apply users_selects].
    + simpl. rewrite Hid, N.eqb_refl, Hrole. reflexivity.
Qed.

Lemma jobs_selects (uid : uuid) (users : list Users.row) (job : Jobs.row) :
  selects (Jobs.policies (Some uid) users) job = true <->
  isRecruiter uid users \/ Jobs.user_id job = Some uid.
Proof.
  change (selects (Jobs.policies (Some uid) users) job)
    with (is_true
            (sql_exists (Jobs.from_users (Some uid) users) (fun u =>
               sql_and (sql_eq N.eqb (Some (Users.id u)) (Some uid))
                       (sql_eq String.eqb (Some (Users.role u)) (Some "recruiter"))))
          || (is_true (sql_eq N.eqb (Some uid) (Jobs.user_id job)) || false)).
  rewrite orb_false_r, orb_true_iff.
  rewrite from_users_recruiter, eq_uuid_opt_true. reflexivity.
Qed.

(** X19.  A job is visible to a user exactly when the user has a [users]
    row with role 'recruiter' or owns the job: recruiters see every job,
    everybody else, applicants included, sees only jobs of their own. *)
Theorem jobs_visible_iff (uid : uuid) (users : list Users.row) (job : Jobs.row) :
  selects (Jobs.policies (Some uid) users) job = true <->
  isRecruiter uid users \/ Jobs.user_id job = Some uid.
Proof. apply jobs_selects. Qed.

Lemma jobs_deletes (uid : uuid) (users : list Users.row) (job : Jobs.row) :
  deletes (Jobs.policies (Some uid) users) job = true <->
  Jobs.user_id job = Some uid.
Proof.
  change (deletes (Jobs.policies (Some uid) users) job)
    with (is_true (sql_eq N.eqb (Some uid) (Jobs.user_id job)) || false).
  now rewrite orb_false_r, eq_uuid_opt_true.
Qed.

(** X20.  Writing a job depends on ownership alone: inserting, updating
    and deleting pass exactly when [user_id] is the user's uid (before and
    after, for an update), whatever the user's role, recruiter or not. *)
Theorem jobs_owner_writes (uid : uuid) (users : list Users.row) (job new : Jobs.row) :
  (inserts (Jobs.policies (Some uid) users) job = true <->
     Jobs.user_id job = Some uid) /\
  (updates (Jobs.policies (Some uid) users) job new = true <->
     Jobs.user_id job = Some uid /\ Jobs.user_id new = Some uid) /\
  (deletes (Jobs.policies (Some uid) users) job = true <->
     Jobs.user_id job = Some uid).
Proof.
  change (inserts (Jobs.policies (Some uid) users) job)
    with (is_true (sql_eq N.eqb (Some uid) (Jobs.user_id job)) || false).
  change (updates (Jobs.policies (Some uid) users) job new)
    with ((is_true (sql_eq N.eqb (Some uid) (Jobs.user_id job)) || false)
          && (is_true (sql_eq N.eqb (Some uid) (Jobs.user_id new)) || false)).
  change (deletes (Jobs.policies (Some uid) users) job)
    with (is_true (sql_eq N.eqb (Some uid) (Jobs.user_id job)) || false).
  rewrite !orb_false_r, andb_true_iff, !eq_uuid_opt_true. tauto.
Qed.

(** X21.  The UPDATE policy of [users] does not look at columns: a user
    may rewrite the [role] of their own row to anything, and with the role
    'recruiter' in the table every job is visible to them. *)
Theorem user_can_change_own_role (uid : uuid) (u : Users.row) (newRole : string)
  (users : list Users.row) (job : Jobs.row) :
  Users.id u = uid ->
  updates (Users.policies (Some uid)) u (Users.withRole u newRole) = true /\
  (In (Users.withRole u "recruiter") users ->
     selects (Jobs.policies (Some uid) users) job = true).
Proof.
  intros Hid. split.
  - apply users_updates. now split.
  - intros Hin. apply jobs_selects. left.
    exists (Users.withRole u "recruiter"). repeat split; assumption.
Qed.

Lemma user_can_change_own_role_witness :
  updates (Users.policies (Some 3%N)) ada (Users.withRole ada "recruiter") = true /\
  selects (Jobs.policies (Some 3%N) [Users.withRole ada "recruiter"; grace])
    compilerJob = true.
Proof.
  destruct (user_can_change_own_role 3%N ada "recruiter"
              [Users.withRole ada "recruiter"; grace] compilerJob eq_refl)
    as [Hupdate Hsee].
  split; [exact Hupdate | apply Hsee; now left].
Defined.

Lemma job_is_mine_true (uid : uuid) (users : list Users.row)
  (jobs : list Jobs.row) (a : Applications.row) :
  is_true (Applications.job_is_mine (Some uid) users jobs a) = true <->
  ownsJobOf uid jobs a.
Proof.
  unfold Applications.job_is_mine. rewrite is_true_exists.
  unfold Applications.from_jobs, ownsJobOf.
  rewrite existsb_exists. split.
  - intros (j & Hin & Hcond). apply filter_In in Hin as [Hin _].
    exists j. split; [assumption |].
    rewrite is_true_and, andb_true_iff in Hcond.
    rewrite eq_uuid_opt_true, eq_opt_uuid_true in Hcond. exact Hcond.
  - intros (j & Hin & Hjob & Howner). exists j. split.
    + apply filter_In. split; [assumption |].
      apply jobs_selects. now right.
    + rewrite is_true_and, andb_true_iff.
      rewrite eq_uuid_opt_true, eq_opt_uuid_true. now split.
Qed.

(** X22.  An application is visible to its applicant and to the owner of
    the job it is for, and to nobody else. *)
Theorem applications_visible_iff (uid : uuid) (users : list Users.row)
  (jobs : list Jobs.row) (a : Applications.row) :
  selects (Applications.policies (Some uid) users jobs) a = true <->
  Applications.applicant_id a = Some uid \/ ownsJobOf uid jobs a.
Proof.
  change (selects (Applications.policies (Some uid) users jobs) a)
    with (is_true
            (sql_or (sql_eq N.eqb (Some uid) (Applications.applicant_id a))
                    (Applications.job_is_mine (Some uid) users jobs a))
          || false).
  rewrite orb_false_r, is_true_or, orb_true_iff.
  now rewrite job_is_mine_true, eq_uuid_opt_true.
Qed.

(** X23.  An application is inserted by its applicant and updated by the
    owner of its job, who must own the job of the row as written too; a
    user who owns no job, the applicant included, can update no
    application. *)
Theorem applications_writes (uid : uuid) (users : list Users.row)
  (jobs : list Jobs.row) (a new : Applications.row) :
  (inserts (Applications.policies (Some uid) users jobs) a = true <->
     Applications.applicant_id a = Some uid) /\
  (updates (Applications.policies (Some uid) users jobs) a new = true <->
     ownsJobOf uid jobs a /\ ownsJobOf uid jobs new) /\
  ((forall j, In j jobs -> Jobs.user_id j <> Some uid) ->
     updates (Applications.policies (Some uid) users jobs) a new = false).
Proof.
  assert (Hupd : updates (Applications.policies (Some uid) users jobs) a new = true <->
                 ownsJobOf uid jobs a /\ ownsJobOf uid jobs new).
  { change (updates (Applications.policies (Some uid) users jobs) a new)
      with ((is_true (Applications.job_is_mine (Some uid) users jobs a) || false)
            && (is_true (Applications.job_is_mine (Some uid) users jobs new)
                || false)).
    now rewrite !orb_false_r, andb_true_iff, !job_is_mine_true. }
  split; [| split; [exact Hupd |]].
  - change (inserts (Applications.policies (Some uid) users jobs) a)
      with (is_true (sql_eq N.eqb (Some uid) (Applications.applicant_id a))
            || false).
    rewrite orb_false_r. apply eq_uuid_opt_true.
  - intros Hnone. apply not_true_is_false. rewrite Hupd.
    intros [(j & Hin & _ & Howner) _]. now apply (Hnone j).
Qed.

Lemma applications_writes_witness :
  updates (Applications.policies (Some 3%N) [ada; grace] [compilerJob])
    adasApplication adasApplication = false.
Proof.
  apply (proj2 (proj2 (applications_writes 3%N [ada; grace] [compilerJob]
                         adasApplication adasApplication))).
  intros j [<- | []]. discriminate.
Defined.

(** X24.  No policy admits a DELETE statement on a row of [users],
    [profiles] or [applications], whoever issues it: the row's owner, a
    recruiter or an unauthenticated request.  (This is about the statement
    itself; rows that a foreign key removes are the next property.) *)
Theorem deletes_never (uid : option uuid) (users : list Users.row)
  (jobs : list Jobs.row) (u : Users.row) (p : Profile) (a : Applications.row) :
  deletes (Users.policies uid) u = false /\
  delete_row uid p = false /\
  deletes (Applications.policies uid users jobs) a = false.
Proof. repeat split. Qed.

(** X27.  Deleting a job removes the applications for it.  When the owner
    of a job deletes it, the job is gone and so is every application that
    refers to it, although no policy lets the owner delete an application;
    the applications that do not refer to the deleted id stay. *)
Theorem job_delete_cascades (uid : uuid) (db : Database) (j : Jobs.row)
  (a : Applications.row) :
  In j (jobs db) -> Jobs.user_id j = Some uid ->
  ~ In j (jobs (delete_job (Some uid) (Jobs.id j) db)) /\
  (Applications.job_id a = Some (Jobs.id j) ->
     ~ In a (applications (delete_job (Some uid) (Jobs.id j) db)) /\
     deletes (Applications.policies (Some uid) (users db) (jobs db)) a = false) /\
  (In a (applications db) -> Applications.job_id a <> Some (Jobs.id j) ->
     In a (applications (delete_job (Some uid) (Jobs.id j) db))).
Proof.
  intros Hin Howner.
  assert (Hgone : job_deleted (Some uid) (Jobs.id j) db j = true).
  { unfold job_deleted. rewrite N.eqb_refl. simpl.
    now apply jobs_deletes. }
  split; [| split].
  - simpl. rewrite filter_In, Hgone. simpl. intros [_ H]. discriminate.
  - intros Hrefers. split; [| reflexivity].
    simpl. rewrite filter_In. intros [_ Hkept].
    apply negb_true_iff in Hkept.
    assert (Hcascade : cascades (Some uid) (Jobs.id j) db a = true).
    { unfold cascades. apply existsb_exists. exists j. split; [assumption |].
      rewrite Hgone, Hrefers. simpl. now rewrite N.eqb_refl. }
    congruence.
  - intros Ha Hother. simpl. apply filter_In. split; [assumption |].
    apply negb_true_iff. apply not_true_is_false.
    unfold cascades. rewrite existsb_exists.
    intros (j' & _ & Hboth). apply andb_true_iff in Hboth as [Hdel Href].
    unfold job_deleted in Hdel. apply andb_true_iff in Hdel as [Hid _].
    apply N.eqb_eq in Hid. apply eq_opt_uuid_true in Href.
    apply Hother. now rewrite Href, Hid.
Qed.

Lemma job_delete_cascades_witness :
  ~ In adasApplication
      (applications
         (delete_job (Some 7%N) 50%N
            {| users := [ada; grace]; jobs := [compilerJob; adasJob];
               applications := [adasApplication] |})).
Proof.
  apply (proj1 (proj2 (job_delete_cascades 7%N
                         {| users := [ada; grace]; jobs := [compilerJob; adasJob];
                            applications := [adasApplication] |}
                         compilerJob adasApplication
                         (or_introl eq_refl) eq_refl)) eq_refl).
Defined.

(** X25.  NULL matches nobody on [profiles]: an unauthenticated request,
    whose [auth.uid()] is NULL, can read and write no row, and a row whose
    [user_id] is NULL can be read and written by no one. *)
Theorem profiles_null_never_matches (uid : option uuid) (row new : Profile) :
  (select_row None row = false /\ insert_row None row = false /\
   update_row None row new = false) /\
  (user_id row = None ->
     select_row uid row = false /\ insert_row uid row = false /\
     update_row uid row new = false /\ update_row uid new row = false).
Proof.
  split.
  - unfold select_row, insert_row, update_row, visible, accepted, holds; simpl.
    repeat split.
  - intros Hnull.
    assert (Hno : forall e, holds uid row (Eq AuthUid UserId) = e -> e = false).
    { intros e <-. unfold holds; simpl. rewrite Hnull. now destruct uid. }
    change (select_row uid row) with (holds uid row (Eq AuthUid UserId) || false).
    change (insert_row uid row) with (holds uid row (Eq AuthUid UserId) || false).
    change (update_row uid row new)
      with ((holds uid row (Eq AuthUid UserId) || false)
            && (holds uid new (Eq AuthUid UserId) || false)).
    change (update_row uid new row)
      with ((holds uid new (Eq AuthUid UserId) || false)
            && (holds uid row (Eq AuthUid UserId) || false)).
    rewrite (Hno _ eq_refl), ?andb_false_r. repeat split.
Qed.

Lemma profiles_null_never_matches_witness :
  select_row (Some 3%N)
    {| id := 102%N; user_id := None; personal_info := None; education := None;
       experience := None; skills := None; projects := None;
       certifications := None; created_at := None; updated_at := None |} = false.
Proof.
  apply (proj2 (profiles_null_never_matches (Some 3%N)
                  {| id := 102%N; user_id := None; personal_info := None;
                     education := None; experience := None; skills := None;
                     projects := None; certifications := None;
                     created_at := None; updated_at := None |} aliceProfile)).
  reflexivity.
Defined.

End RlsSpec.

(** ** The validation trigger *)

Module ProfileTriggerSpec.
Import Rls ProfileTrigger.

(** X26.  [validate_profile_data] returns the row unchanged exactly when
    [personal_info] is NULL or has both 'name' and 'contact', and
    [education] is NULL or an array: a NULL column passes its check.  It
    raises the [personal_info] message whenever that column fails,
    whatever [education] holds, and the [education] message when only
    [education] fails. *)
Theorem validate_profile_data_spec (NEW : NewRow) :
  (validate_profile_data NEW = inr NEW <->
     personalInfoOk NEW = true /\ educationOk NEW = true) /\
  (validate_profile_data NEW = inl personalInfoMessage <->
     personalInfoOk NEW = false) /\
  (validate_profile_data NEW = inl educationMessage <->
     personalInfoOk NEW = true /\ educationOk NEW = false) /\
  (forall row, validate_profile_data NEW = inr row -> row = NEW).
Proof.
  unfold validate_profile_data, personalInfoOk, educationOk.
  destruct (personal_info NEW) as [info |]; simpl.
  - destruct (jsonb_exists info "name"), (jsonb_exists info "contact"); simpl;
      try (repeat split; intros; try discriminate; try tauto;
           match goal with H : _ /\ _ |- _ => destruct H; discriminate end).
    destruct (education NEW) as [[] |]; simpl;
      repeat split; intros; try discriminate; try tauto; try congruence;
      match goal with H : _ /\ _ |- _ => destruct H; discriminate end.
  - destruct (education NEW) as [[] |]; simpl;
      repeat split; intros; try discriminate; try tauto; try congruence;
      match goal with H : _ /\ _ |- _ => destruct H; discriminate end.
Qed.

Lemma validate_profile_data_spec_witness :
  validate_profile_data nullRow = inr nullRow /\
  validate_profile_data completeRow = inr completeRow.
Proof.
  split.
  - apply (proj1 (validate_profile_data_spec nullRow)). split; reflexivity.
  - apply (proj1 (validate_profile_data_spec completeRow)). split; reflexivity.
Defined.

End ProfileTriggerSpec.
